(** * python-market-data: the fetchers and the candlestick renderer

    A shallow embedding of [marketData.py] and [marketDataGraph.py].

    Both scripts are wrappers around three libraries: pandas (tables),
    yfinance (the remote provider) and mplfinance (the chart library).
    The tables are modelled concretely, column by column as pandas stores
    them; the provider and the chart library are interfaces (type classes)
    whose answers the scripts react to.  Python's effects are threaded
    through one monad: a world holding the clock, the object store, the
    file system and the log of everything the script did, plus Python
    exceptions. *)

From Stdlib Require Import QArith.
From stdpp Require Import gmap strings pretty list fin_maps.
Close Scope Q_scope.

(* ===================================================================== *)
(** * Values held in a table *)
(* ===================================================================== *)

(** A row label of a price-bar series (a timestamp). *)
Definition Timestamp := Z.

(** One cell of a pandas column of dtype [object] or [float64]: a number,
    the float NaN, Python's [None], or a string. *)
Inductive Cell :=
| CNum (q : Q)
| CNaN
| CNone
| CStr (s : string).

Global Instance Cell_inhabited : Inhabited Cell := populate CNaN.

(** [pd.isna] on one cell. *)
Definition isna (c : Cell) : bool :=
  match c with
  | CNaN | CNone => true
  | CNum _ | CStr _ => false
  end.

(** A pandas table: the row index and the columns in order, each column a
    label and its cells.  [L] is the type of column labels: a string for a
    plain [Index], a pair (price field, ticker) for the two-level
    [MultiIndex] of a combined multi-symbol table. *)
Record Frame (L : Type) := mkFrame {
  df_index : list Timestamp;
  df_columns : list (L * list Cell)
}.
Arguments mkFrame {L} _ _.
Arguments df_index {L} _.
Arguments df_columns {L} _.

Abbreviation DataFrame := (Frame string).

Section Frames.
Context {L : Type}.

Definition df_labels (d : Frame L) : list L := (df_columns d).*1.

Definition df_nrows (d : Frame L) : nat := length (df_index d).

(** [DataFrame.empty]: true when either axis has length 0. *)
Definition df_empty (d : Frame L) : bool :=
  match df_index d, df_columns d with
  | [], _ | _, [] => true
  | _, _ => false
  end.

(** pandas keeps every column as long as the index. *)
Definition rectangular (d : Frame L) : Prop :=
  Forall (λ c, length c.2 = df_nrows d) (df_columns d).

(** The table read row by row: row [i] is its timestamp and its cells in
    column order. *)
Definition df_row (d : Frame L) (i : nat) : Timestamp * list Cell :=
  (df_index d !!! i, (λ c, c.2 !!! i) <$> df_columns d).

Definition df_rows (d : Frame L) : list (Timestamp * list Cell) :=
  df_row d <$> seq 0 (df_nrows d).

(** [pd.DataFrame()] *)
Definition df_new_empty : Frame L := mkFrame [] [].
End Frames.

(** The positions of the rows that [dropna] keeps: no cell of the row is
    missing. *)
Definition dropna_keep {L} (d : Frame L) : list nat :=
  filter (λ i, forallb (λ c, negb (isna (c.2 !!! i))) (df_columns d) = true)
         (seq 0 (df_nrows d)).

(** [DataFrame.dropna()] with its defaults (axis 0, how "any"): the table
    restricted to the kept positions, every column and the index alike. *)
Definition dropna {L} (d : Frame L) : Frame L :=
  let keep := dropna_keep d in
  mkFrame ((λ i, df_index d !!! i) <$> keep)
          ((λ c, (c.1, (λ i, c.2 !!! i) <$> keep)) <$> df_columns d).

(* ===================================================================== *)
(** * Python exceptions, the world, and the effect monad *)
(* ===================================================================== *)

(** A raised exception (every one here derives from [Exception]): its class
    and the text [str(e)] that an f-string prints. *)
Record Exception := mkExc { exc_class : string; exc_str : string }.

Definition KeyError (what : string) : Exception := mkExc "KeyError" what.
Definition TypeError (what : string) : Exception := mkExc "TypeError" what.
Definition AttributeError (what : string) : Exception :=
  mkExc "AttributeError" what.

(** What [tickers] can be: one symbol or a list of symbols. *)
Inductive Tickers :=
| TStr (s : string)
| TList (l : list string).

(** The bytes of a rendered image. *)
Definition Image := string.

(** The arguments of one [mpf.plot] call; [pc_data] is the table as it
    stands when the call is made. *)
Record PlotCall := mkPlotCall {
  pc_data : DataFrame;
  pc_type : string;
  pc_style : string;
  pc_title : string;
  pc_ylabel : string;
  pc_volume : bool;
  pc_show_nontrading : bool;
  pc_figscale : Q;
  pc_savefig : string
}.

(** Everything a script does to the outside, in order. *)
Inductive Event :=
| EPrint (line : string)
| EDownload (tickers : Tickers) (start end_ interval : string)
| ETickerLookup (ticker : string)
| EPlot (call : PlotCall)
| ESave (path : string) (img : Image).

(** Objects are referred to by location, as Python names refer to objects. *)
Definition loc := positive.

Record World := mkWorld {
  w_today : Z;                       (* the current date, as a day ordinal *)
  w_heap : gmap loc DataFrame;       (* the tables alive in the process *)
  w_files : gmap string Image;       (* the current working directory *)
  w_trace : list Event               (* what was done so far, oldest first *)
}.

(** A computation runs in a world and ends with a value or a raised
    exception; effects done before a raise stay done. *)
Definition Py (A : Type) : Type := World → World * (Exception + A).

Global Instance Py_ret : MRet Py := λ A x w, (w, inr x).

Global Instance Py_bind : MBind Py := λ A B f m w,
  match m w with
  | (w', inl e) => (w', inl e)
  | (w', inr a) => f a w'
  end.

Definition raise {A} (e : Exception) : Py A := λ w, (w, inl e).

(** [try: body except Exception as e: handler e] *)
Definition try_except {A} (body : Py A) (handler : Exception → Py A) : Py A :=
  λ w, match body w with
       | (w', inl e) => handler e w'
       | (w', inr a) => (w', inr a)
       end.

(** [for x in xs: body x] *)
Fixpoint for_each {A} (xs : list A) (body : A → Py unit) : Py unit :=
  match xs with
  | [] => mret tt
  | x :: xs' => body x ;; for_each xs' body
  end.

Definition emit (ev : Event) : Py unit := λ w,
  (mkWorld (w_today w) (w_heap w) (w_files w) (w_trace w ++ [ev]), inr tt).

Definition print (line : string) : Py unit := emit (EPrint line).

(** [dt.date.today()] *)
Definition date_today : Py Z := λ w, (w, inr (w_today w)).

(** The store: a new object gets a location not in use. *)
Definition alloc (d : DataFrame) : Py loc := λ w,
  let p := fresh (dom (w_heap w)) in
  (mkWorld (w_today w) (<[p := d]> (w_heap w)) (w_files w) (w_trace w), inr p).

Definition deref (p : loc) : Py DataFrame := λ w,
  match w_heap w !! p with
  | Some d => (w, inr d)
  | None => (w, inl (mkExc "ReferenceError" "no such object"))
  end.

Definition assign (p : loc) (d : DataFrame) : Py unit := λ w,
  (mkWorld (w_today w) (<[p := d]> (w_heap w)) (w_files w) (w_trace w), inr tt).

(** Writing a file replaces whatever the path held. *)
Definition write_file (path : string) (img : Image) : Py unit := λ w,
  (mkWorld (w_today w) (w_heap w) (<[path := img]> (w_files w))
           (w_trace w ++ [ESave path img]), inr tt).

(* ===================================================================== *)
(** * Python text formatting *)
(* ===================================================================== *)

(** [repr] of a list of strings, as an f-string prints it:
    ['Open', 'High'].  (Labels holding a quote or a backslash would be
    escaped by Python; none of the labels used here does.) *)
Definition py_repr_str (s : string) : string := "'" +:+ s +:+ "'".

Definition py_repr_list (l : list string) : string :=
  "[" +:+ String.concat ", " (py_repr_str <$> l) +:+ "]".

(** [f"{tickers}"] *)
Definition py_str_tickers (t : Tickers) : string :=
  match t with
  | TStr s => s
  | TList l => py_repr_list l
  end.

(* ===================================================================== *)
(** * The libraries the scripts call *)
(* ===================================================================== *)

(** What [yf.download] hands back: a table whose columns are a plain index
    or the two-level (field, ticker) index of a combined table. *)
Inductive PyFrame :=
| PlainFrame (d : Frame string)
| MultiFrame (d : Frame (string * string)).

Definition pf_empty (data : PyFrame) : bool :=
  match data with
  | PlainFrame d => df_empty d
  | MultiFrame d => df_empty d
  end.

Definition pf_nrows (data : PyFrame) : nat :=
  match data with
  | PlainFrame d => df_nrows d
  | MultiFrame d => df_nrows d
  end.

(** A [yf.Ticker] object: the symbol and its [info] mapping. *)
Record TickerHandle := mkTicker {
  tk_symbol : string;
  tk_info : gmap string Cell
}.

(** yfinance: each call either raises or answers. *)
Class Provider := {
  yf_download : Tickers → string → string → string → Exception + PyFrame;
  yf_Ticker : string → Exception + TickerHandle
}.

(** mplfinance: given the arguments of [mpf.plot], it either raises or
    renders the image that is then saved under [savefig]. *)
Class ChartLibrary := {
  mpf_render : PlotCall → Exception + Image
}.

(** The two pieces of library text handling the scripts rely on:
    [date.strftime('%Y-%m-%d')] on a day ordinal and the number parser
    behind [pd.to_numeric] ([None] when the text is no number). *)
Class TextRuntime := {
  strftime_ymd : Z → string;
  parse_numeric : string → option Q
}.

(** [pd.to_numeric(..., errors='coerce')] on one cell. *)
Definition coerce_cell {text : TextRuntime} (c : Cell) : Cell :=
  match c with
  | CNum q => CNum q
  | CNaN | CNone => CNaN
  | CStr s => match parse_numeric s with
              | Some q => CNum q
              | None => CNaN
              end
  end.

(** [data.xs(ticker, axis=1, level=1)]: the columns whose second level is
    [ticker], that level dropped. *)
Definition xs_level1 (ticker : string) (data : PyFrame) : Exception + DataFrame :=
  match data with
  | PlainFrame _ => inl (TypeError "Index must be a MultiIndex")
  | MultiFrame d =>
      match filter (λ c, c.1.2 = ticker) (df_columns d) with
      | [] => inl (KeyError (py_repr_str ticker))
      | cs => inr (mkFrame (df_index d) ((λ c, (c.1.1, c.2)) <$> cs))
      end
  end.

(** Lifting a library answer into the monad. *)
Definition lift_result {A} (r : Exception + A) : Py A :=
  match r with
  | inl e => raise e
  | inr a => mret a
  end.

(** [{k: f(k) for k in keys}]: keys are visited in order, a repeated key
    keeps its last value. *)
Fixpoint dict_comprehension_from {V} (acc : gmap string V) (keys : list string)
    (f : string → Py V) : Py (gmap string V) :=
  match keys with
  | [] => mret acc
  | k :: ks => v ← f k; dict_comprehension_from (<[k := v]> acc) ks f
  end.

Definition dict_comprehension {V} (keys : list string) (f : string → Py V)
    : Py (gmap string V) :=
  dict_comprehension_from ∅ keys f.

(** What a dict comprehension over library answers comes to: the first
    failing key raises, otherwise the keys are inserted left to right. *)
Fixpoint collect_from {V} (acc : gmap string V) (keys : list string)
    (g : string → Exception + V) : Exception + gmap string V :=
  match keys with
  | [] => inr acc
  | k :: ks => match g k with
               | inl e => inl e
               | inr v => collect_from (<[k := v]> acc) ks g
               end
  end.


(* ===================================================================== *)
(** * pandas operations on table objects *)
(* ===================================================================== *)

(** [df[label]] gives a Series when the label names one column and a
    table when it names several. *)
Inductive Selection :=
| SelSeries (cells : list Cell)
| SelFrame (d : DataFrame).

(** [data.empty] *)
Definition df_get_empty (p : loc) : Py bool :=
  d ← deref p; mret (df_empty d).

(** [data.columns] *)
Definition df_get_columns (p : loc) : Py (list string) :=
  d ← deref p; mret (df_labels d).

(** The columns selected by [df[labels]]: for each label in turn, every
    column carrying it. *)
Definition select_columns (d : DataFrame) (labels : list string)
    : list (string * list Cell) :=
  flat_map (λ l, filter (λ c, c.1 = l) (df_columns d)) labels.

(** [df[labels]]: a new table; a label that is absent raises. *)
Definition df_getitem_list (p : loc) (labels : list string) : Py loc :=
  d ← deref p;
  match filter (λ l, l ∉ df_labels d) labels with
  | [] => alloc (mkFrame (df_index d) (select_columns d labels))
  | missing => raise (KeyError (py_repr_list missing +:+ " not in index"))
  end.

(** [df.copy()] *)
Definition df_copy (p : loc) : Py loc :=
  d ← deref p; alloc d.

(** [df[label]] *)
Definition df_getitem (p : loc) (label : string) : Py Selection :=
  d ← deref p;
  match filter (λ c, c.1 = label) (df_columns d) with
  | [] => raise (KeyError (py_repr_str label))
  | [c] => mret (SelSeries c.2)
  | cs => mret (SelFrame (mkFrame (df_index d) cs))
  end.

(** [pd.to_numeric(x, errors='coerce')]: a Series is coerced cell by cell,
    a table is refused. *)
Definition to_numeric {text : TextRuntime} (x : Selection) : Py (list Cell) :=
  match x with
  | SelSeries cells => mret (coerce_cell <$> cells)
  | SelFrame _ =>
      raise (TypeError "arg must be a list, tuple, 1-d array, or Series")
  end.

(** [df[label] = cells] (the Series comes from the same table, so it is
    aligned already): every column carrying the label is replaced in place,
    a new label is appended. *)
Definition set_column (d : DataFrame) (label : string) (cells : list Cell)
    : DataFrame :=
  if bool_decide (label ∈ df_labels d)
  then mkFrame (df_index d)
         ((λ c, if bool_decide (c.1 = label) then (c.1, cells) else c)
            <$> df_columns d)
  else mkFrame (df_index d) (df_columns d ++ [(label, cells)]).

Definition df_setitem (p : loc) (label : string) (cells : list Cell) : Py unit :=
  d ← deref p; assign p (set_column d label cells).

(** [df.dropna(inplace=True)] *)
Definition df_dropna_inplace (p : loc) : Py unit :=
  d ← deref p; assign p (dropna d).

(** [mpf.plot(df, type=..., ..., savefig=path)] *)
Definition mpf_plot {chart : ChartLibrary} (p : loc) (type style title ylabel : string)
    (volume show_nontrading : bool) (figscale : Q) (savefig : string) : Py unit :=
  d ← deref p;
  let call := mkPlotCall d type style title ylabel volume show_nontrading
                         figscale savefig in
  emit (EPlot call);;
  img ← lift_result (mpf_render call);
  write_file savefig img.

(* ===================================================================== *)
(** * marketData.py *)
(* ===================================================================== *)

(** A value a fetch returns: a table, or a dict of per-symbol tables. *)
Inductive FetchResult :=
| RFrame (data : PyFrame)
| RDict (d : gmap string DataFrame).

(** [yf.download(tickers, start=..., end=..., interval=...)] *)
Definition download {provider : Provider} (tickers : Tickers) (start end_ interval : string)
    : Py PyFrame :=
  emit (EDownload tickers start end_ interval);;
  lift_result (yf_download tickers start end_ interval).

(** [yf.Ticker(ticker)] *)
Definition ticker_lookup {provider : Provider} (ticker : string) : Py TickerHandle :=
  emit (ETickerLookup ticker);;
  lift_result (yf_Ticker ticker).

(** The two defaults at the head of [get_historical_data]. *)
Definition default_start {text : TextRuntime} (start_date : option string) : Py string :=
  match start_date with
  | None => today ← date_today; mret (strftime_ymd (today - 365))
  | Some s => mret s
  end.

Definition default_end {text : TextRuntime} (end_date : option string) : Py string :=
  match end_date with
  | None => today ← date_today; mret (strftime_ymd today)
  | Some s => mret s
  end.

Definition downloading_line (tickers : Tickers) (start_date end_date : string)
    : string :=
  "Downloading historical data for " +:+ py_str_tickers tickers +:+ " from "
    +:+ start_date +:+ " to " +:+ end_date +:+ "...".

Definition no_data_line : string :=
  "No data found. Please check the ticker symbol(s) or date range.".

Module MarketData.
Section Script.
Context {provider : Provider} {text : TextRuntime}.

Definition get_historical_data (tickers : Tickers)
    (start_date end_date : option string) (interval : string) : Py PyFrame :=
  start_date ← default_start start_date;
  end_date ← default_end end_date;
  print (downloading_line tickers start_date end_date);;
  try_except
    (data ← download tickers start_date end_date interval;
     (if pf_empty data
      then print no_data_line
      else print "Data downloaded successfully.");;
     mret data)
    (λ e, print ("An error occurred: " +:+ exc_str e);;
          mret (PlainFrame df_new_empty)).

Definition get_ticker_info (ticker : string) : Py (option TickerHandle) :=
  print ("Fetching information for ticker: " +:+ ticker +:+ "...");;
  try_except
    (ticker_obj ← ticker_lookup ticker;
     mret (Some ticker_obj))
    (λ e, print ("An error occurred: " +:+ exc_str e);;
          mret None).

End Script.
End MarketData.

(* ===================================================================== *)
(** * marketDataGraph.py *)
(* ===================================================================== *)

Module MarketDataGraph.
Section Script.
Context {provider : Provider} {chart : ChartLibrary} {text : TextRuntime}.

(** [pd.DataFrame() if isinstance(tickers, str) else {}] *)
Definition empty_result (tickers : Tickers) : FetchResult :=
  match tickers with
  | TStr _ => RFrame (PlainFrame df_new_empty)
  | TList _ => RDict ∅
  end.

(** [isinstance(tickers, list) and len(tickers) > 1] *)
Definition several (tickers : Tickers) : option (list string) :=
  match tickers with
  | TList l => if bool_decide (1 < length l) then Some l else None
  | TStr _ => None
  end.

Definition get_historical_data (tickers : Tickers)
    (start_date end_date : option string) (interval : string) : Py FetchResult :=
  start_date ← default_start start_date;
  end_date ← default_end end_date;
  print (downloading_line tickers start_date end_date);;
  try_except
    (data ← download tickers start_date end_date interval;
     if pf_empty data
     then print no_data_line;;
          mret (empty_result tickers)
     else
       print "Data downloaded successfully.";;
       match several tickers with
       | Some l =>
           data_dict ← dict_comprehension l
                         (λ ticker, lift_result (xs_level1 ticker data));
           mret (RDict data_dict)
       | None => mret (RFrame data)
       end)
    (λ e, print ("An error occurred: " +:+ exc_str e);;
          mret (empty_result tickers)).

Definition get_ticker_info (ticker : string) : Py (option TickerHandle) :=
  print ("Fetching information for ticker: " +:+ ticker +:+ "...");;
  try_except
    (ticker_obj ← ticker_lookup ticker;
     mret (Some ticker_obj))
    (λ e, print ("An error occurred: " +:+ exc_str e);;
          mret None).

Definition required_cols : list string :=
  ["Open"; "High"; "Low"; "Close"; "Volume"].

Definition title_text (ticker : string) : string :=
  ticker +:+ " Candlestick Chart".

Definition save_path (ticker : string) : string :=
  ticker +:+ "_candlestick_chart.png".

Definition creating_line (ticker : string) : string :=
  "Creating candlestick chart for " +:+ ticker +:+ "...".

Definition missing_line : string :=
  "Error: Missing one or more required columns for plotting: "
    +:+ py_repr_list required_cols.

Definition available_line (columns : list string) : string :=
  "Available columns: " +:+ py_repr_list columns.

Definition saved_line (ticker : string) : string :=
  "Chart saved as " +:+ save_path ticker.

Definition plotting_error_line (e : Exception) : string :=
  "An error occurred while plotting: " +:+ exc_str e.

Definition create_candlestick_chart (data : loc) (ticker : string) : Py unit :=
  is_empty ← df_get_empty data;
  if is_empty : bool
  then print "No data to plot."
  else
    print (creating_line ticker);;
    try_except
      (columns ← df_get_columns data;
       if negb (forallb (λ col, bool_decide (col ∈ columns)) required_cols)
       then
         print missing_line;;
         columns ← df_get_columns data;
         print (available_line columns)
       else
         selected ← df_getitem_list data required_cols;
         plot_data ← df_copy selected;
         columns ← df_get_columns plot_data;
         for_each columns
           (λ col, series ← df_getitem plot_data col;
                   numeric ← to_numeric series;
                   df_setitem plot_data col numeric);;
         df_dropna_inplace plot_data;;
         mpf_plot plot_data "candle" "charles" (title_text ticker) "Price"
                  true false (3 # 2)%Q (save_path ticker);;
         print (saved_line ticker))
      (λ e, print (plotting_error_line e)).

End Script.
End MarketDataGraph.

(* ===================================================================== *)
(** * Reading a run *)
(* ===================================================================== *)

(** The world after some more events. *)
Definition add_events (w : World) (evs : list Event) : World :=
  mkWorld (w_today w) (w_heap w) (w_files w) (w_trace w ++ evs).

(** The start and end dates a fetch hands to the provider. *)
Definition start_arg {text : TextRuntime} (w : World) (start_date : option string)
    : string :=
  from_option id (strftime_ymd (w_today w - 365)) start_date.

Definition end_arg {text : TextRuntime} (w : World) (end_date : option string)
    : string :=
  from_option id (strftime_ymd (w_today w)) end_date.

(** The provider requests, chart requests and file writes in a trace. *)
Definition download_calls (tr : list Event)
    : list (Tickers * string * string * string) :=
  omap (λ ev, match ev with
              | EDownload t s e i => Some (t, s, e, i)
              | _ => None
              end) tr.

Definition plot_calls (tr : list Event) : list PlotCall :=
  omap (λ ev, match ev with EPlot c => Some c | _ => None end) tr.

Definition file_writes (tr : list Event) : list (string * Image) :=
  omap (λ ev, match ev with ESave p i => Some (p, i) | _ => None end) tr.

Definition printed (tr : list Event) : list string :=
  omap (λ ev, match ev with EPrint l => Some l | _ => None end) tr.

(** [result.empty], the check the example callers make on a fetched
    table; a dict has no such attribute. *)
Definition attr_empty (r : FetchResult) : Exception + bool :=
  match r with
  | RFrame data => inr (pf_empty data)
  | RDict _ => inl (AttributeError "'dict' object has no attribute 'empty'")
  end.


(** The world with another store. *)
Definition with_heap (w : World) (h : gmap loc DataFrame) : World :=
  mkWorld (w_today w) h (w_files w) (w_trace w).

(** The cells under a label (of the first column carrying it). *)
Definition column (d : DataFrame) (label : string) : list Cell :=
  match filter (λ c, c.1 = label) (df_columns d) with
  | c :: _ => c.2
  | [] => []
  end.

(** One turn of the coercion loop, and the table once every column has had
    its turn. *)
Definition coerce_column {text : TextRuntime} (d : DataFrame) (label : string)
    : DataFrame :=
  set_column d label (coerce_cell <$> column d label).

Definition coerce_columns {text : TextRuntime} (d : DataFrame) : DataFrame :=
  mkFrame (df_index d)
    ((λ c : string * list Cell, (c.1, coerce_cell <$> c.2)) <$> df_columns d).

(** The table [data[required_cols]] and the table handed to the chart
    library when cleaning runs to its end. *)
Definition selected (d : DataFrame) : DataFrame :=
  mkFrame (df_index d) (select_columns d MarketDataGraph.required_cols).

Definition cleaned {text : TextRuntime} (d : DataFrame) : DataFrame :=
  dropna (coerce_columns (selected d)).

(** The [mpf.plot] request of the renderer for a cleaned table. *)
Definition chart_request (plot_data : DataFrame) (ticker : string) : PlotCall :=
  mkPlotCall plot_data "candle" "charles" (MarketDataGraph.title_text ticker)
             "Price" true false (3 # 2)%Q (MarketDataGraph.save_path ticker).

(** ** The cleaning step as the specification words it

    Coerce each of the five columns to numeric, treating non-numeric
    values as missing; drop any row with a missing value in any of the
    five columns.  Row [i] of the table, reduced to the five fields and
    coerced: *)
Definition spec_coerced_row {text : TextRuntime} (d : DataFrame) (i : nat)
    : Timestamp * list Cell :=
  (df_index d !!! i,
   (λ label, coerce_cell (column d label !!! i))
     <$> MarketDataGraph.required_cols).

(** A row with no missing value. *)
Definition complete (r : Timestamp * list Cell) : Prop :=
  Forall (λ c, isna c = false) r.2.

Global Instance complete_dec r : Decision (complete r).
Proof. unfold complete. apply _. Defined.

(** The rows that remain, in their original order. *)
Definition spec_clean_rows {text : TextRuntime} (d : DataFrame)
    : list (Timestamp * list Cell) :=
  filter complete (spec_coerced_row d <$> seq 0 (df_nrows d)).

(** The body of the coercion loop of the renderer, for the table at [p]. *)
Definition coerce_body {text : TextRuntime} (p : loc) (col : string) : Py unit :=
  series ← df_getitem p col;
  numeric ← to_numeric series;
  df_setitem p col numeric.

(** The store once the renderer has made its two working tables: the
    selection [data[required_cols]] and, at the next free location, its
    copy, whose final state is [final]. *)
Definition working_heap (h : gmap loc DataFrame) (sel final : DataFrame)
    : gmap loc DataFrame :=
  let h1 := <[fresh (dom h) := sel]> h in
  <[fresh (dom h1) := final]> h1.

(** Each of the five required labels names exactly one column. *)
Definition required_once (d : DataFrame) : Prop :=
  ∀ l, l ∈ MarketDataGraph.required_cols → ∃ c, filter (λ c, c.1 = l) (df_columns d) = [c].

(* ===================================================================== *)
(** * Reading the diagnostics *)
(* ===================================================================== *)

(** Whether [needle] occurs somewhere in [hay]. *)
Fixpoint occurs_in (needle hay : string) : bool :=
  String.prefix needle hay
  || match hay with
     | EmptyString => false
     | String _ rest => occurs_in needle rest
     end.

(** A printed line names a column when the quoted label occurs in it. *)
Definition names_column (line label : string) : bool :=
  occurs_in (py_repr_str label) line.

(** The required columns a table lacks. *)
Definition missing_cols (d : DataFrame) : list string :=
  filter (λ l, l ∉ df_labels d) MarketDataGraph.required_cols.

(** A line lists the missing set when, of the five required columns, it
    names the missing ones and no others. *)
Definition lists_missing_set (line : string) (d : DataFrame) : Prop :=
  ∀ l, l ∈ MarketDataGraph.required_cols →
       (names_column line l = true ↔ l ∈ missing_cols d).

(* ===================================================================== *)
(** * Concrete libraries and tables *)
(* ===================================================================== *)

(** A calendar: the proleptic Gregorian date of a day ordinal (day 1 is
    0001-01-01, as [date.toordinal] counts), printed as YYYY-MM-DD. *)
Definition civil_of_ordinal (n : Z) : Z * Z * Z :=
  let z := (n + 305)%Z in
  let era := (z `div` 146097)%Z in
  let doe := (z - era * 146097)%Z in
  let yoe := ((doe - doe `div` 1460 + doe `div` 36524 - doe `div` 146096)
                `div` 365)%Z in
  let doy := (doe - (365 * yoe + yoe `div` 4 - yoe `div` 100))%Z in
  let mp := ((5 * doy + 2) `div` 153)%Z in
  let day := (doy - (153 * mp + 2) `div` 5 + 1)%Z in
  let month := (if bool_decide (mp < 10)%Z then mp + 3 else mp - 9)%Z in
  let year := (yoe + era * 400 + (if bool_decide (month ≤ 2)%Z then 1 else 0))%Z in
  (year, month, day).

Definition pad2 (n : Z) : string :=
  if bool_decide (n < 10)%Z then "0" +:+ pretty n else pretty n.

Definition pad4 (n : Z) : string :=
  if bool_decide (n < 10)%Z then "000" +:+ pretty n
  else if bool_decide (n < 100)%Z then "00" +:+ pretty n
  else if bool_decide (n < 1000)%Z then "0" +:+ pretty n
  else pretty n.

Definition gregorian_ymd (n : Z) : string :=
  let '(y, m, d) := civil_of_ordinal n in
  pad4 y +:+ "-" +:+ pad2 m +:+ "-" +:+ pad2 d.

(** A number reader that accepts unsigned decimal integers. *)
Definition digit_value (a : Ascii.ascii) : option Z :=
  let n := Z.of_nat (Ascii.nat_of_ascii a) in
  if bool_decide (48 ≤ n ≤ 57)%Z then Some (n - 48)%Z else None.

Fixpoint parse_digits (acc : Z) (s : string) : option Z :=
  match s with
  | EmptyString => Some acc
  | String a rest =>
      match digit_value a with
      | Some v => parse_digits (10 * acc + v) rest
      | None => None
      end
  end.

Definition parse_unsigned (s : string) : option Q :=
  match s with
  | EmptyString => None
  | _ => inject_Z <$> parse_digits 0 s
  end.

Definition plain_text : TextRuntime :=
  {| strftime_ymd := gregorian_ymd; parse_numeric := parse_unsigned |}.

(** A chart library that refuses a table without rows and renders any
    other. *)
Definition strict_chart : ChartLibrary :=
  {| mpf_render call :=
       match df_index (pc_data call) with
       | [] => inl (mkExc "IndexError"
                      "index 0 is out of bounds for axis 0 with size 0")
       | _ :: _ => inr ("PNG:" +:+ pc_title call)
       end |}.

(** A chart library that renders whatever it is given. *)
Definition lenient_chart : ChartLibrary :=
  {| mpf_render call := inr ("PNG:" +:+ pc_title call) |}.

Definition num (z : Z) : Cell := CNum (inject_Z z).

(** Three daily bars; the second has no usable close. *)
Definition bars_aapl : DataFrame :=
  mkFrame [19358; 19359; 19360]%Z
    [("Open", [num 130; num 127; CStr "126"]);
     ("High", [num 131; num 129; num 128]);
     ("Low", [num 124; num 125; num 125]);
     ("Close", [num 125; CStr "n/a"; num 127]);
     ("Adj Close", [CNaN; CNaN; CNaN]);
     ("Volume", [num 1120; num 890; num 806])].

(** The same bars without the volume column. *)
Definition bars_no_volume : DataFrame :=
  mkFrame [19358; 19359; 19360]%Z
    [("Open", [num 130; num 127; num 126]);
     ("High", [num 131; num 129; num 128]);
     ("Low", [num 124; num 125; num 125]);
     ("Close", [num 125; num 126; num 127])].

(** Bars none of which survives cleaning. *)
Definition bars_unusable : DataFrame :=
  mkFrame [19358; 19359]%Z
    [("Open", [num 130; num 127]);
     ("High", [num 131; num 129]);
     ("Low", [num 124; num 125]);
     ("Close", [CStr "n/a"; CNone]);
     ("Volume", [num 1120; CNaN])].

(** A combined monthly table for two symbols. *)
Definition bars_two_symbols : Frame (string * string) :=
  mkFrame [19358; 19389]%Z
    [(("Close", "GOOGL"), [num 99; num 90]);
     (("Close", "MSFT"), [num 247; num 249]);
     (("Volume", "GOOGL"), [num 500; num 600]);
     (("Volume", "MSFT"), [num 700; num 800])].

(** A provider that knows AAPL and the pair MSFT, GOOGL, and fails on
    anything else. *)
Definition small_provider : Provider :=
  {| yf_download tickers start end_ interval :=
       match tickers with
       | TStr "AAPL" => inr (PlainFrame bars_aapl)
       | TList ["MSFT"; "GOOGL"] => inr (MultiFrame bars_two_symbols)
       | _ => inl (mkExc "ConnectionError" "provider unreachable")
       end;
     yf_Ticker ticker :=
       match ticker with
       | "TSLA" => inr (mkTicker "TSLA" {[ "sector" := CStr "Consumer Cyclical" ]})
       | _ => inl (mkExc "ConnectionError" "provider unreachable")
       end |}.

(** A process on 2024-03-01 holding one table at location 1. *)
Definition world_with (d : DataFrame) : World :=
  mkWorld 738946 {[ 1%positive := d ]}
          {[ "AAPL_candlestick_chart.png" := "old image" ]} [].

(** The renderer run on each of the three tables, with the strict chart
    library. *)
Definition render_in (d : DataFrame) : World * (Exception + unit) :=
  MarketDataGraph.create_candlestick_chart (chart:=strict_chart)
    (text:=plain_text) 1%positive "AAPL" (world_with d).

(** The request the renderer sends for the AAPL bars. *)
Definition aapl_request : PlotCall :=
  chart_request
    (mkFrame [19358; 19360]%Z
       [("Open", [num 130; num 126]);
        ("High", [num 131; num 128]);
        ("Low", [num 124; num 125]);
        ("Close", [num 125; num 127]);
        ("Volume", [num 1120; num 806])])
    "AAPL".

(* ===================================================================== *)
(** * The outcomes of a render *)
(* ===================================================================== *)

(** Every way a render of a live table can go: no data; a required column
    missing; a required label carried twice, which stops the cleaning;
    the chart library refusing the request; the chart saved. *)
Inductive RenderOutcome {chart : ChartLibrary} {text : TextRuntime}
    (w : World) (d : DataFrame) (ticker : string)
    : World * (Exception + unit) → Prop :=
| render_no_data :
    df_empty d = true →
    RenderOutcome w d ticker
      (add_events w [EPrint "No data to plot."], inr tt)
| render_columns_missing :
    df_empty d = false →
    ¬ MarketDataGraph.required_cols ⊆ df_labels d →
    RenderOutcome w d ticker
      (add_events w
         [EPrint (MarketDataGraph.creating_line ticker);
          EPrint MarketDataGraph.missing_line;
          EPrint (MarketDataGraph.available_line (df_labels d))], inr tt)
| render_cleaning_failed cur e :
    df_empty d = false →
    MarketDataGraph.required_cols ⊆ df_labels d →
    ¬ NoDup (df_labels (selected d)) →
    RenderOutcome w d ticker
      (mkWorld (w_today w) (working_heap (w_heap w) (selected d) cur)
               (w_files w)
               (w_trace w
                  ++ [EPrint (MarketDataGraph.creating_line ticker);
                      EPrint (MarketDataGraph.plotting_error_line e)]),
       inr tt)
| render_plot_failed e :
    df_empty d = false →
    required_once d →
    mpf_render (chart_request (cleaned d) ticker) = inl e →
    RenderOutcome w d ticker
      (mkWorld (w_today w) (working_heap (w_heap w) (selected d) (cleaned d))
               (w_files w)
               (w_trace w
                  ++ [EPrint (MarketDataGraph.creating_line ticker);
                      EPlot (chart_request (cleaned d) ticker);
                      EPrint (MarketDataGraph.plotting_error_line e)]),
       inr tt)
| render_saved img :
    df_empty d = false →
    required_once d →
    mpf_render (chart_request (cleaned d) ticker) = inr img →
    RenderOutcome w d ticker
      (mkWorld (w_today w) (working_heap (w_heap w) (selected d) (cleaned d))
               (<[MarketDataGraph.save_path ticker := img]> (w_files w))
               (w_trace w
                  ++ [EPrint (MarketDataGraph.creating_line ticker);
                      EPlot (chart_request (cleaned d) ticker);
                      ESave (MarketDataGraph.save_path ticker) img;
                      EPrint (MarketDataGraph.saved_line ticker)]),
       inr tt).

(** A step from [w] to [w'] that only talks: the directory and the tables
    are as before, and what was added to the trace holds no file write and
    no chart request. *)
Definition only_talks (w w' : World) : Prop :=
  w_files w' = w_files w
  ∧ w_heap w' = w_heap w
  ∧ ∃ evs, w_trace w' = w_trace w ++ evs
           ∧ file_writes evs = [] ∧ plot_calls evs = [].

(* ===================================================================== *)
(** * More concrete libraries and tables *)
(* ===================================================================== *)

(** A chart library that cannot write. *)
Definition failing_chart : ChartLibrary :=
  {| mpf_render call := inl (mkExc "OSError" "No space left on device") |}.

(** A provider that answers every request with the two-symbol table. *)
Definition pair_provider : Provider :=
  {| yf_download tickers start end_ interval :=
       inr (MultiFrame bars_two_symbols);
     yf_Ticker ticker := inr (mkTicker ticker ∅) |}.



(** One bar whose close column comes twice. *)
Definition bars_close_twice : DataFrame :=
  mkFrame [19358]%Z
    [("Open", [num 130]); ("High", [num 131]); ("Low", [num 124]);
     ("Close", [num 125]); ("Close", [num 126]); ("Volume", [num 1120])].

(** A combined table with the five price fields of two symbols. *)
Definition bars_two_full : Frame (string * string) :=
  mkFrame [19358; 19389]%Z
    [(("Close", "GOOGL"), [num 99; num 90]);
     (("Close", "MSFT"), [num 247; num 249]);
     (("High", "GOOGL"), [num 101; num 95]);
     (("High", "MSFT"), [num 250; num 252]);
     (("Low", "GOOGL"), [num 97; num 88]);
     (("Low", "MSFT"), [num 240; num 245]);
     (("Open", "GOOGL"), [num 98; num 94]);
     (("Open", "MSFT"), [num 243; num 248]);
     (("Volume", "GOOGL"), [num 500; num 600]);
     (("Volume", "MSFT"), [num 700; num 800])].
(* ===================================================================== *)
(** * Stepping through the monad *)
(* ===================================================================== *)

Lemma bind_unfold {A B} (m : Py A) (f : A → Py B) (w : World) :
  (m ≫= f) w = match m w with
               | (w', inl e) => (w', inl e)
               | (w', inr a) => f a w'
               end.
Proof. reflexivity. Qed.

Lemma bind_ok {A B} (m : Py A) (f : A → Py B) (w w' : World) (a : A) :
  m w = (w', inr a) → (m ≫= f) w = f a w'.
Proof. intros Hm. rewrite bind_unfold, Hm. reflexivity. Qed.

Lemma bind_raise {A B} (m : Py A) (f : A → Py B) (w w' : World) (e : Exception) :
  m w = (w', inl e) → (m ≫= f) w = (w', inl e).
Proof. intros Hm. rewrite bind_unfold, Hm. reflexivity. Qed.

Lemma try_ok {A} (body : Py A) (h : Exception → Py A) (w w' : World) (a : A) :
  body w = (w', inr a) → try_except body h w = (w', inr a).
Proof. intros Hb. unfold try_except. rewrite Hb. reflexivity. Qed.

Lemma try_raise {A} (body : Py A) (h : Exception → Py A) (w w' : World)
    (e : Exception) :
  body w = (w', inl e) → try_except body h w = h e w'.
Proof. intros Hb. unfold try_except. rewrite Hb. reflexivity. Qed.

Lemma add_events_add (w : World) (xs ys : list Event) :
  add_events (add_events w xs) ys = add_events w (xs ++ ys).
Proof. unfold add_events. simpl. by rewrite <- (assoc_L (++)). Qed.

Lemma emit_add (ev : Event) (w : World) : emit ev w = (add_events w [ev], inr tt).
Proof. reflexivity. Qed.

Lemma default_start_run {text : TextRuntime} (sd : option string) (w : World) :
  default_start sd w = (w, inr (start_arg w sd)).
Proof. by destruct sd. Qed.

Lemma default_end_run {text : TextRuntime} (ed : option string) (w : World) :
  default_end ed w = (w, inr (end_arg w ed)).
Proof. by destruct ed. Qed.

(** Unfolds the sequencing of a script down to its first library call. *)
Ltac py_prologue :=
  unfold MarketData.get_historical_data, MarketDataGraph.get_historical_data,
         MarketData.get_ticker_info, MarketDataGraph.get_ticker_info;
  repeat first
    [ erewrite (bind_ok (default_start _)) by apply default_start_run
    | erewrite (bind_ok (default_end _)) by apply default_end_run
    | erewrite (bind_ok (print _)) by apply emit_add ].

Lemma dict_comprehension_collect {V} (g : string → Exception + V)
    (keys : list string) (acc : gmap string V) (w : World) :
  dict_comprehension_from acc keys (λ k, lift_result (g k)) w
    = lift_result (collect_from acc keys g) w.
Proof.
  revert acc. induction keys as [|k ks IH]; intros acc; simpl; [done|].
  rewrite bind_unfold. destruct (g k) as [e|v]; simpl; [done|]. apply IH.
Qed.

Lemma collect_from_total {V} (g : string → Exception + V) (v : string → V)
    (keys : list string) (acc : gmap string V) :
  (∀ k, k ∈ keys → g k = inr (v k)) →
  collect_from acc keys g = inr (foldl (λ a k, <[k := v k]> a) acc keys).
Proof.
  revert acc. induction keys as [|k ks IH]; intros acc Hg; simpl; [done|].
  rewrite Hg by left. apply IH. intros k' Hk'. apply Hg. by right.
Qed.

Lemma foldl_insert_lookup {V} (v : string → V) (keys : list string)
    (acc : gmap string V) (t : string) :
  foldl (λ a k, <[k := v k]> a) acc keys !! t
    = if decide (t ∈ keys) then Some (v t) else acc !! t.
Proof.
  revert acc. induction keys as [|k ks IH]; intros acc; cbn [foldl].
  - destruct (decide (t ∈ [])) as [Hin|]; [by apply elem_of_nil in Hin | done].
  - rewrite IH. destruct (decide (t ∈ ks)) as [Hks|Hks].
    + rewrite decide_True by (by right). done.
    + destruct (decide (t = k)) as [->|Hne].
      * rewrite decide_True by left. apply lookup_insert_eq.
      * rewrite decide_False by (rewrite elem_of_cons; tauto).
        by apply lookup_insert_ne.
Qed.

Lemma foldl_insert_dom {V} (v : string → V) (keys : list string)
    (acc : gmap string V) :
  dom (foldl (λ a k, <[k := v k]> a) acc keys) = dom acc ∪ list_to_set keys.
Proof.
  revert acc. induction keys as [|k ks IH]; intros acc; simpl.
  - by rewrite (right_id_L ∅ (∪)).
  - rewrite IH, dom_insert_L.
    rewrite (comm_L (∪) {[k]} (dom acc)). by rewrite (assoc_L (∪)).
Qed.

(* ===================================================================== *)
(** * The fetchers *)
(* ===================================================================== *)

Section Fetch.
Context {provider : Provider} {chart : ChartLibrary} {text : TextRuntime}.

Lemma download_raises tickers s e i w err :
  yf_download tickers s e i = inl err →
  download tickers s e i w = (add_events w [EDownload tickers s e i], inl err).
Proof.
  intros Hp. unfold download.
  erewrite bind_ok by apply emit_add. by rewrite Hp.
Qed.

Lemma download_answers tickers s e i w data :
  yf_download tickers s e i = inr data →
  download tickers s e i w = (add_events w [EDownload tickers s e i], inr data).
Proof.
  intros Hp. unfold download.
  erewrite bind_ok by apply emit_add. by rewrite Hp.
Qed.

(** C5. When the provider raises, both [get_historical_data] functions
    catch the error and return normally with an empty result: the simple
    variant an empty table, the splitting variant an empty table for a
    single symbol given as a string and an empty mapping for a list.  The
    run asks the provider once (no retry): it prints the download line,
    makes the one request, and prints the error line. *)
Theorem get_historical_data_provider_error
    (tickers : Tickers) (start_date end_date : option string)
    (interval : string) (w : World) (err : Exception) :
  yf_download tickers (start_arg w start_date) (end_arg w end_date) interval
    = inl err →
  let s := start_arg w start_date in
  let e := end_arg w end_date in
  let w' := add_events w [EPrint (downloading_line tickers s e);
                          EDownload tickers s e interval;
                          EPrint ("An error occurred: " +:+ exc_str err)] in
  MarketData.get_historical_data tickers start_date end_date interval w
    = (w', inr (PlainFrame df_new_empty))
  ∧ MarketDataGraph.get_historical_data tickers start_date end_date interval w
    = (w', inr match tickers with
               | TStr _ => RFrame (PlainFrame df_new_empty)
               | TList _ => RDict ∅
               end)
  ∧ download_calls (w_trace w')
    = download_calls (w_trace w) ++ [(tickers, s, e, interval)].
Proof.
  intros Hp s e w'. split; [|split].
  - py_prologue.
    erewrite try_raise
      by (erewrite bind_raise; [reflexivity | by apply download_raises]).
    erewrite bind_ok by apply emit_add.
    by rewrite add_events_add, add_events_add.
  - py_prologue.
    erewrite try_raise
      by (erewrite bind_raise; [reflexivity | by apply download_raises]).
    erewrite bind_ok by apply emit_add.
    rewrite add_events_add, add_events_add. by destruct tickers.
  - unfold w', download_calls. simpl. by rewrite omap_app.
Qed.

(** The whole of the splitting variant, by what the provider answers. *)
Lemma graph_fetch_run (tickers : Tickers) (start_date end_date : option string)
    (interval : string) (w : World) :
  let s := start_arg w start_date in
  let e := end_arg w end_date in
  let asked := [EPrint (downloading_line tickers s e);
                EDownload tickers s e interval] in
  let failed err := EPrint ("An error occurred: " +:+ exc_str err) in
  let succeeded := EPrint "Data downloaded successfully." in
  MarketDataGraph.get_historical_data tickers start_date end_date interval w
  = match yf_download tickers s e interval with
    | inl err =>
        (add_events w (asked ++ [failed err]),
         inr (MarketDataGraph.empty_result tickers))
    | inr data =>
        if pf_empty data
        then (add_events w (asked ++ [EPrint no_data_line]),
              inr (MarketDataGraph.empty_result tickers))
        else match MarketDataGraph.several tickers with
             | None => (add_events w (asked ++ [succeeded]), inr (RFrame data))
             | Some l =>
                 match collect_from ∅ l (λ t, xs_level1 t data) with
                 | inr d => (add_events w (asked ++ [succeeded]),
                             inr (RDict d))
                 | inl err =>
                     (add_events w (asked ++ [succeeded; failed err]),
                      inr (MarketDataGraph.empty_result tickers))
                 end
             end
    end.
Proof.
  intros s e asked failed succeeded. py_prologue.
  fold s e. destruct (yf_download tickers s e interval) as [err|data] eqn:Hp.
  - erewrite try_raise
      by (erewrite bind_raise; [reflexivity | by apply download_raises]).
    erewrite bind_ok by apply emit_add.
    by rewrite !add_events_add.
  - destruct (pf_empty data) eqn:Hem.
    + erewrite try_ok; [reflexivity|].
      erewrite bind_ok by (by apply download_answers).
      rewrite Hem. erewrite bind_ok by apply emit_add.
      by rewrite !add_events_add.
    + destruct (MarketDataGraph.several tickers) as [l|] eqn:Hsev.
      * destruct (collect_from ∅ l (λ t, xs_level1 t data)) as [err|d] eqn:Hc.
        -- erewrite try_raise.
           2:{ erewrite bind_ok by (by apply download_answers).
               rewrite Hem. erewrite bind_ok by apply emit_add.
               unfold dict_comprehension.
               erewrite bind_raise; [reflexivity|].
               rewrite dict_comprehension_collect, Hc. reflexivity. }
           erewrite bind_ok by apply emit_add.
           by rewrite !add_events_add.
        -- erewrite try_ok; [reflexivity|].
           erewrite bind_ok by (by apply download_answers).
           rewrite Hem. erewrite bind_ok by apply emit_add.
           unfold dict_comprehension.
           erewrite bind_ok
             by (rewrite dict_comprehension_collect, Hc; reflexivity).
           by rewrite !add_events_add.
      * erewrite try_ok; [reflexivity|].
        erewrite bind_ok by (by apply download_answers).
        rewrite Hem. erewrite bind_ok by apply emit_add.
        by rewrite !add_events_add.
Qed.

(** The whole of the simple variant. *)
Lemma simple_fetch_run (tickers : Tickers) (start_date end_date : option string)
    (interval : string) (w : World) :
  let s := start_arg w start_date in
  let e := end_arg w end_date in
  let asked := [EPrint (downloading_line tickers s e);
                EDownload tickers s e interval] in
  MarketData.get_historical_data tickers start_date end_date interval w
  = match yf_download tickers s e interval with
    | inl err =>
        (add_events w
           (asked ++ [EPrint ("An error occurred: " +:+ exc_str err)]),
         inr (PlainFrame df_new_empty))
    | inr data =>
        (add_events w
           (asked ++ [EPrint (if pf_empty data then no_data_line
                              else "Data downloaded successfully.")]),
         inr data)
    end.
Proof.
  intros s e asked. py_prologue.
  fold s e. destruct (yf_download tickers s e interval) as [err|data] eqn:Hp.
  - erewrite try_raise
      by (erewrite bind_raise; [reflexivity | by apply download_raises]).
    erewrite bind_ok by apply emit_add.
    by rewrite !add_events_add.
  - erewrite try_ok; [reflexivity|].
    erewrite bind_ok by (by apply download_answers).
    destruct (pf_empty data);
      (erewrite bind_ok by apply emit_add); by rewrite !add_events_add.
Qed.
(** C6. An unspecified start date is today minus 365 days and an
    unspecified end date is today, in both files: these are the dates the
    provider is asked for, and a date the caller gives is passed on as it
    is.  Computing a default reads the current date and nothing else, and
    changes nothing. *)
Theorem default_dates_are_last_365_days
    (tickers : Tickers) (start_date end_date : option string)
    (interval : string) (w : World) :
  let s := match start_date with
           | None => strftime_ymd (w_today w - 365)
           | Some given => given
           end in
  let e := match end_date with
           | None => strftime_ymd (w_today w)
           | Some given => given
           end in
  default_start start_date w = (w, inr s)
  ∧ default_end end_date w = (w, inr e)
  ∧ download_calls
      (w_trace (MarketData.get_historical_data
                  tickers start_date end_date interval w).1)
    = download_calls (w_trace w) ++ [(tickers, s, e, interval)]
  ∧ download_calls
      (w_trace (MarketDataGraph.get_historical_data
                  tickers start_date end_date interval w).1)
    = download_calls (w_trace w) ++ [(tickers, s, e, interval)].
Proof.
  intros s e.
  assert (Hs : start_arg w start_date = s) by (by destruct start_date).
  assert (He : end_arg w end_date = e) by (by destruct end_date).
  split; [by rewrite default_start_run, Hs|].
  split; [by rewrite default_end_run, He|].
  split.
  - rewrite simple_fetch_run, Hs, He.
    destruct (yf_download tickers s e interval) as [err|data];
      simpl; unfold download_calls; by rewrite omap_app.
  - rewrite graph_fetch_run, Hs, He.
    destruct (yf_download tickers s e interval) as [err|data].
    { simpl. unfold download_calls. by rewrite omap_app. }
    destruct (pf_empty data).
    { simpl. unfold download_calls. by rewrite omap_app. }
    destruct (MarketDataGraph.several tickers) as [l|].
    2:{ simpl. unfold download_calls. by rewrite omap_app. }
    destruct (collect_from ∅ l (λ t, xs_level1 t data));
      simpl; unfold download_calls; by rewrite omap_app.
Qed.

Lemma ticker_lookup_raises ticker w err :
  yf_Ticker ticker = inl err →
  ticker_lookup ticker w = (add_events w [ETickerLookup ticker], inl err).
Proof.
  intros Hp. unfold ticker_lookup.
  erewrite bind_ok by apply emit_add. by rewrite Hp.
Qed.

(** C7. When the provider raises during the metadata lookup,
    [get_ticker_info] (the same in both files) catches the error and
    returns [None]; nothing is raised to the caller. *)
Theorem get_ticker_info_provider_error
    (ticker : string) (w : World) (err : Exception) :
  yf_Ticker ticker = inl err →
  let w' := add_events w
              [EPrint ("Fetching information for ticker: " +:+ ticker +:+ "...");
               ETickerLookup ticker;
               EPrint ("An error occurred: " +:+ exc_str err)] in
  MarketData.get_ticker_info ticker w = (w', inr None)
  ∧ MarketDataGraph.get_ticker_info ticker w = (w', inr None).
Proof.
  intros Hp w'. split; py_prologue;
    (erewrite try_raise
       by (erewrite bind_raise; [reflexivity | by apply ticker_lookup_raises]));
    (erewrite bind_ok by apply emit_add);
    by rewrite !add_events_add.
Qed.

(** C10. For a one-element list of symbols, the splitting variant returns
    the provider's table itself when the fetch succeeds with data, and the
    empty mapping when the provider raises or answers with an empty table.
    The two results differ in shape: the [.empty] test that recognises an
    empty table does not recognise the empty mapping (a dict has no such
    attribute). *)
Theorem single_element_list_result_shapes
    (ticker : string) (start_date end_date : option string)
    (interval : string) (w : World) :
  (MarketDataGraph.get_historical_data
     (TList [ticker]) start_date end_date interval w).2
  = match yf_download (TList [ticker]) (start_arg w start_date)
                      (end_arg w end_date) interval with
    | inr data => if pf_empty data then inr (RDict ∅) else inr (RFrame data)
    | inl _ => inr (RDict ∅)
    end
  ∧ (∀ data, attr_empty (RFrame data) = inr (pf_empty data))
  ∧ attr_empty (RDict ∅) ≠ inr true.
Proof.
  split; [|split; [done|discriminate]].
  rewrite graph_fetch_run.
  destruct (yf_download _ _ _ _) as [err|data]; [done|].
  by destruct (pf_empty data).
Qed.

Lemma xs_level1_covered (m : Frame (string * string)) (t : string) :
  t ∈ (df_labels m).*2 →
  xs_level1 t (MultiFrame m)
  = inr (mkFrame (df_index m)
           ((λ c, (c.1.1, c.2)) <$> filter (λ c, c.1.2 = t) (df_columns m))).
Proof.
  intros Hin. unfold xs_level1.
  destruct (filter (λ c, c.1.2 = t) (df_columns m)) as [|c cs] eqn:Hf; [|done].
  exfalso. unfold df_labels in Hin.
  apply list_elem_of_fmap in Hin as [lbl [-> Hin]].
  apply list_elem_of_fmap in Hin as [c [-> Hin]].
  assert (Hc : c ∈ @nil (string * string * list Cell))
    by (rewrite <- Hf; by apply list_elem_of_filter).
  by apply elem_of_nil in Hc.
Qed.

(** C4. A request for a list of more than one symbol succeeds when the
    provider answers with a non-empty combined table in which every
    requested symbol has columns.  The splitting variant then returns a
    mapping whose keys are exactly the requested symbols; the entry of a
    symbol is that symbol's own table (its columns of the combined table,
    labelled by price field, on the combined table's index), so it has as
    many rows as the combined table. *)
Theorem split_per_symbol
    (symbols : list string) (start_date end_date : option string)
    (interval : string) (w : World) (m : Frame (string * string)) :
  1 < length symbols →
  yf_download (TList symbols) (start_arg w start_date) (end_arg w end_date)
              interval = inr (MultiFrame m) →
  df_empty m = false →
  (∀ t, t ∈ symbols → t ∈ (df_labels m).*2) →
  ∃ d : gmap string DataFrame,
    (MarketDataGraph.get_historical_data
       (TList symbols) start_date end_date interval w).2 = inr (RDict d)
    ∧ dom d = list_to_set symbols
    ∧ ∀ t, t ∈ symbols →
        ∃ dt, d !! t = Some dt
              ∧ xs_level1 t (MultiFrame m) = inr dt
              ∧ df_index dt = df_index m
              ∧ df_columns dt
                = (λ c, (c.1.1, c.2)) <$> filter (λ c, c.1.2 = t) (df_columns m)
              ∧ df_nrows dt = df_nrows m.
Proof.
  intros Hlen Hp Hne Hcov.
  set (v t := mkFrame (df_index m)
                ((λ c, (c.1.1, c.2)) <$> filter (λ c, c.1.2 = t) (df_columns m))).
  exists (foldl (λ a k, <[k := v k]> a) ∅ symbols).
  split; [|split].
  - rewrite graph_fetch_run, Hp. simpl. rewrite Hne.
    rewrite bool_decide_true by done.
    rewrite (collect_from_total _ v); [done|].
    intros k Hk. by apply xs_level1_covered, Hcov.
  - by rewrite foldl_insert_dom, dom_empty_L, (left_id_L ∅ (∪)).
  - intros t Ht. exists (v t).
    rewrite foldl_insert_lookup, decide_True by done.
    split; [done|]. split; [by apply xs_level1_covered, Hcov|done].
Qed.
End Fetch.

(* ===================================================================== *)
(** * Tables: rows, labels, and the cleaning step *)
(* ===================================================================== *)

Import MarketDataGraph.

Lemma fmap_lookup_total_seq {A B} `{Inhabited A} (F : A → B) (l : list A) :
  (λ k, F (l !!! k)) <$> seq 0 (length l) = F <$> l.
Proof.
  induction l as [|x l IH]; [done|].
  cbn [length seq]. rewrite !fmap_cons, <- fmap_S_seq, <- list_fmap_compose.
  f_equal. exact IH.
Qed.

Lemma filter_fmap {A B} (P : B → Prop) `{∀ x, Decision (P x)} (f : A → B)
    (l : list A) :
  filter P (f <$> l) = f <$> filter (λ x, P (f x)) l.
Proof.
  induction l as [|x l IH]; [done|].
  rewrite fmap_cons, !filter_cons, IH. by destruct (decide (P (f x))).
Qed.

Lemma filter_ext_in {A} (P Q : A → Prop) `{∀ x, Decision (P x)}
    `{∀ x, Decision (Q x)} (l : list A) :
  (∀ x, x ∈ l → P x ↔ Q x) → filter P l = filter Q l.
Proof.
  induction l as [|x l IH]; intros HPQ; [done|].
  rewrite !filter_cons, IH by (intros y Hy; apply HPQ; by right).
  destruct (decide (P x)) as [HP|HP], (decide (Q x)) as [HQ|HQ]; try done.
  - by apply HPQ in HP; [|left].
  - by apply HPQ in HQ; [|left].
Qed.

Lemma forallb_fmap {A B} (p : B → bool) (f : A → B) (l : list A) :
  forallb p (f <$> l) = forallb (λ x, p (f x)) l.
Proof.
  induction l as [|x l IH]; [done|].
  rewrite fmap_cons. cbn [forallb]. by rewrite IH.
Qed.

Lemma complete_forallb (r : Timestamp * list Cell) :
  complete r ↔ forallb (λ c, negb (isna c)) r.2 = true.
Proof.
  unfold complete. rewrite forallb_forall, Forall_forall.
  split; intros Hr c Hc.
  - apply list_elem_of_In, Hr in Hc. by rewrite Hc.
  - apply list_elem_of_In, Hr in Hc. by destruct (isna c).
Qed.

Lemma df_rows_dropna {L} (d : Frame L) :
  df_rows (dropna d) = filter complete (df_rows d).
Proof.
  unfold df_rows at 1. unfold df_nrows, dropna. cbn [df_index].
  rewrite length_fmap.
  transitivity (df_row d <$> dropna_keep d).
  - rewrite <- (fmap_lookup_total_seq (df_row d)).
    apply list_fmap_ext. intros k i Hk.
    apply lookup_seq in Hk as [-> Hk]. cbn [plus] in *.
    unfold df_row. cbn [df_index df_columns].
    rewrite (list_lookup_total_fmap (λ i, df_index d !!! i) _ k) by done.
    f_equal.
    rewrite <- list_fmap_compose. apply list_fmap_ext. intros j c _.
    cbn. by rewrite (list_lookup_total_fmap (λ i, c.2 !!! i) _ k).
  - unfold dropna_keep, df_rows. rewrite filter_fmap.
    f_equal. apply filter_ext_in. intros i _.
    rewrite complete_forallb. unfold df_row. cbn [snd].
    by rewrite forallb_fmap.
Qed.


Lemma filter_label_fmap (g : string * list Cell → string * list Cell)
    (l : string) (cols : list (string * list Cell)) :
  (∀ c, (g c).1 = c.1) →
  filter (λ c, c.1 = l) (g <$> cols) = g <$> filter (λ c, c.1 = l) cols.
Proof.
  intros Hg. rewrite filter_fmap. f_equal.
  apply filter_ext_in. intros c _. by rewrite Hg.
Qed.

Lemma set_column_present (d : DataFrame) (l : string) (x : list Cell) :
  l ∈ df_labels d →
  set_column d l x
  = mkFrame (df_index d)
      ((λ c, if bool_decide (c.1 = l) then (c.1, x) else c) <$> df_columns d).
Proof. intros Hl. unfold set_column. by rewrite bool_decide_true. Qed.

Lemma filter_nonempty_label (d : DataFrame) (l : string) c cs :
  filter (λ c, c.1 = l) (df_columns d) = c :: cs → l ∈ df_labels d.
Proof.
  intros Hf. assert (Hc : c ∈ filter (λ c, c.1 = l) (df_columns d))
    by (rewrite Hf; left).
  apply list_elem_of_filter in Hc as [<- Hc].
  unfold df_labels. apply list_elem_of_fmap. by exists c.
Qed.

Lemma set_column_filter (d : DataFrame) (l l' : string) (x : list Cell) :
  l ∈ df_labels d →
  filter (λ c, c.1 = l') (df_columns (set_column d l x))
  = (λ c, if bool_decide (c.1 = l) then (c.1, x) else c)
      <$> filter (λ c, c.1 = l') (df_columns d).
Proof.
  intros Hl. rewrite set_column_present by done. cbn [df_columns].
  apply filter_label_fmap. intros c. by case_bool_decide.
Qed.

Lemma set_column_labels (d : DataFrame) (l : string) (x : list Cell) :
  l ∈ df_labels d → df_labels (set_column d l x) = df_labels d.
Proof.
  intros Hl. rewrite set_column_present by done. unfold df_labels.
  cbn [df_columns]. rewrite <- list_fmap_compose.
  apply list_fmap_ext. intros i c _. cbn. by case_bool_decide.
Qed.


(** Each pandas operation, run on a live object. *)
Lemma deref_ok p w d : w_heap w !! p = Some d → deref p w = (w, inr d).
Proof. intros Hp. unfold deref. by rewrite Hp. Qed.

Lemma df_get_empty_run p w d :
  w_heap w !! p = Some d → df_get_empty p w = (w, inr (df_empty d)).
Proof. intros Hp. unfold df_get_empty. by erewrite bind_ok by by apply deref_ok. Qed.

Lemma df_get_columns_run p w d :
  w_heap w !! p = Some d → df_get_columns p w = (w, inr (df_labels d)).
Proof. intros Hp. unfold df_get_columns. by erewrite bind_ok by by apply deref_ok. Qed.

Lemma df_getitem_series p col w d c :
  w_heap w !! p = Some d →
  filter (λ c, c.1 = col) (df_columns d) = [c] →
  df_getitem p col w = (w, inr (SelSeries c.2)).
Proof.
  intros Hp Hf. unfold df_getitem.
  erewrite bind_ok by by apply deref_ok. by rewrite Hf.
Qed.

Lemma df_getitem_frame p col w d c1 c2 cs :
  w_heap w !! p = Some d →
  filter (λ c, c.1 = col) (df_columns d) = c1 :: c2 :: cs →
  df_getitem p col w = (w, inr (SelFrame (mkFrame (df_index d) (c1 :: c2 :: cs)))).
Proof.
  intros Hp Hf. unfold df_getitem.
  erewrite bind_ok by by apply deref_ok. by rewrite Hf.
Qed.

Lemma df_getitem_absent p col w d :
  w_heap w !! p = Some d →
  filter (λ c, c.1 = col) (df_columns d) = [] →
  df_getitem p col w = (w, inl (KeyError (py_repr_str col))).
Proof.
  intros Hp Hf. unfold df_getitem.
  erewrite bind_ok by by apply deref_ok. by rewrite Hf.
Qed.

Lemma df_setitem_run p col x w d :
  w_heap w !! p = Some d →
  df_setitem p col x w
  = (with_heap w (<[p := set_column d col x]> (w_heap w)), inr tt).
Proof.
  intros Hp. unfold df_setitem. by erewrite bind_ok by by apply deref_ok.
Qed.

Lemma df_dropna_inplace_run p w d :
  w_heap w !! p = Some d →
  df_dropna_inplace p w = (with_heap w (<[p := dropna d]> (w_heap w)), inr tt).
Proof.
  intros Hp. unfold df_dropna_inplace. by erewrite bind_ok by by apply deref_ok.
Qed.

Lemma df_copy_run p w d :
  w_heap w !! p = Some d →
  df_copy p w
  = (with_heap w (<[fresh (dom (w_heap w)) := d]> (w_heap w)),
     inr (fresh (dom (w_heap w)))).
Proof.
  intros Hp. unfold df_copy. by erewrite bind_ok by by apply deref_ok.
Qed.

Lemma df_getitem_list_run p labels w d :
  w_heap w !! p = Some d →
  labels ⊆ df_labels d →
  df_getitem_list p labels w
  = (with_heap w (<[fresh (dom (w_heap w))
                    := mkFrame (df_index d) (select_columns d labels)]>
                    (w_heap w)),
     inr (fresh (dom (w_heap w)))).
Proof.
  intros Hp Hsub. unfold df_getitem_list.
  erewrite bind_ok by by apply deref_ok.
  destruct (filter (λ l, l ∉ df_labels d) labels) as [|l ls] eqn:Hf; [done|].
  assert (Hl : l ∈ filter (λ l, l ∉ df_labels d) labels) by (rewrite Hf; left).
  apply list_elem_of_filter in Hl as [Hl Hin]. by apply Hsub in Hin.
Qed.

Lemma with_heap_with_heap w h h' : with_heap (with_heap w h) h' = with_heap w h'.
Proof. reflexivity. Qed.

Lemma with_heap_id w : with_heap w (w_heap w) = w.
Proof. by destruct w. Qed.

(** The coercion loop, one column at a time. *)
Section Loop.
Context {text : TextRuntime}.


Lemma coerce_body_unique p col w cur c :
  w_heap w !! p = Some cur →
  filter (λ c, c.1 = col) (df_columns cur) = [c] →
  coerce_body p col w
  = (with_heap w (<[p := coerce_column cur col]> (w_heap w)), inr tt).
Proof.
  intros Hp Hf. unfold coerce_body.
  erewrite bind_ok by by eapply df_getitem_series.
  erewrite bind_ok by reflexivity.
  rewrite (df_setitem_run _ _ _ _ cur) by done.
  unfold coerce_column, column. by rewrite Hf.
Qed.

Lemma coerce_loop_unique p (ls : list string) :
  ∀ w cur,
    w_heap w !! p = Some cur →
    (∀ l, l ∈ ls → ∃ c, filter (λ c, c.1 = l) (df_columns cur) = [c]) →
    for_each ls (coerce_body p) w
    = (with_heap w (<[p := foldl coerce_column cur ls]> (w_heap w)), inr tt).
Proof.
  induction ls as [|l ls IH]; intros w cur Hp Huniq.
  - cbn. by rewrite insert_id, with_heap_id.
  - destruct (Huniq l) as [c Hc]; [left|].
    cbn [for_each foldl].
    erewrite bind_ok by by eapply coerce_body_unique.
    assert (Hl : l ∈ df_labels cur) by by eapply filter_nonempty_label.
    erewrite IH.
    + by rewrite with_heap_with_heap; cbn [with_heap w_heap]; rewrite insert_insert_eq.
    + cbn. apply lookup_insert_eq.
    + intros l' Hl'. destruct (Huniq l') as [c' Hc']; [by right|].
      unfold coerce_column. rewrite set_column_filter, Hc' by done. eauto.
Qed.

Lemma filter_label_NoDup (cols : list (string * list Cell)) c :
  NoDup cols.*1 → c ∈ cols → filter (λ c', c'.1 = c.1) cols = [c].
Proof.
  induction cols as [|c0 cols IH]; intros Hnd Hc.
  - by apply elem_of_nil in Hc.
  - rewrite fmap_cons in Hnd. apply NoDup_cons in Hnd as [Hc0 Hnd].
    rewrite filter_cons. apply elem_of_cons in Hc as [->|Hc].
    + rewrite decide_True by done. f_equal.
      destruct (filter (λ c', c'.1 = c0.1) cols) as [|c' cs] eqn:Hf; [done|].
      exfalso. apply Hc0.
      assert (Hc' : c' ∈ filter (λ c', c'.1 = c0.1) cols) by (rewrite Hf; left).
      apply list_elem_of_filter in Hc' as [<- Hc'].
      apply list_elem_of_fmap. by exists c'.
    + rewrite decide_False; [by apply IH|].
      intros Heq. apply Hc0. rewrite Heq.
      apply list_elem_of_fmap. by exists c.
Qed.

Lemma column_NoDup (d : DataFrame) c :
  NoDup (df_labels d) → c ∈ df_columns d → column d c.1 = c.2.
Proof.
  intros Hnd Hc. unfold column. by rewrite filter_label_NoDup.
Qed.

Lemma foldl_coerce_column (ls : list string) :
  ∀ cur : DataFrame,
    NoDup ls → NoDup (df_labels cur) → ls ⊆ df_labels cur →
    foldl coerce_column cur ls
    = mkFrame (df_index cur)
        ((λ c : string * list Cell,
            if bool_decide (c.1 ∈ ls) then (c.1, coerce_cell <$> c.2) else c)
           <$> df_columns cur).
Proof.
  induction ls as [|l ls IH]; intros cur Hls Hnd Hsub.
  - cbn [foldl]. destruct cur as [idx cols]. cbn. f_equal.
    rewrite <- (list_fmap_id cols) at 1.
    apply list_fmap_ext. intros i c _.
    rewrite bool_decide_false; [done|]. apply not_elem_of_nil.
  - apply NoDup_cons in Hls as [Hl Hls].
    assert (Hin : l ∈ df_labels cur) by (apply Hsub; left).
    cbn [foldl]. rewrite IH; cycle 1.
    + done.
    + unfold coerce_column. by rewrite set_column_labels.
    + unfold coerce_column. rewrite set_column_labels by done.
      intros l' Hl'. apply Hsub. by right.
    + unfold coerce_column. rewrite set_column_present by done.
      cbn [df_index df_columns]. f_equal.
      rewrite <- list_fmap_compose. apply list_fmap_ext. intros i c Hc.
      apply list_elem_of_lookup_2 in Hc. cbn.
      destruct (decide (c.1 = l)) as [Heq|Hne].
      * rewrite (bool_decide_true (c.1 = l)) by done. cbn [fst snd].
        rewrite (bool_decide_false (c.1 ∈ ls)) by (by rewrite Heq).
        rewrite (bool_decide_true (c.1 ∈ l :: ls)) by (rewrite Heq; left).
        by rewrite <- Heq, column_NoDup.
      * rewrite (bool_decide_false (c.1 = l)) by done.
        destruct (decide (c.1 ∈ ls)) as [Hcl|Hcl].
        -- rewrite !bool_decide_true; [done| by right | done].
        -- rewrite !bool_decide_false; [done| |done].
           rewrite elem_of_cons. tauto.
Qed.

Lemma foldl_coerce_all (cur : DataFrame) :
  NoDup (df_labels cur) →
  foldl coerce_column cur (df_labels cur) = coerce_columns cur.
Proof.
  intros Hnd. rewrite foldl_coerce_column by done.
  unfold coerce_columns. f_equal.
  apply list_fmap_ext. intros i c Hc.
  rewrite bool_decide_true; [done|].
  apply list_elem_of_lookup_2 in Hc. apply list_elem_of_fmap. by exists c.
Qed.

Lemma lookup_total_coerce (x : list Cell) (i : nat) :
  (coerce_cell <$> x) !!! i = coerce_cell (x !!! i).
Proof.
  destruct (decide (i < length x)) as [Hi|Hi].
  - by apply list_lookup_total_fmap.
  - rewrite !list_lookup_total_alt, list_lookup_fmap.
    rewrite lookup_ge_None_2 by lia. done.
Qed.

Lemma select_columns_unique (d : DataFrame) (labels : list string) :
  (∀ l, l ∈ labels → ∃ c, filter (λ c, c.1 = l) (df_columns d) = [c]) →
  select_columns d labels = (λ l, (l, column d l)) <$> labels.
Proof.
  unfold select_columns.
  induction labels as [|l ls IH]; intros Huniq; [done|].
  cbn [flat_map]. rewrite fmap_cons, IH by (intros l' Hl'; apply Huniq; by right).
  destruct (Huniq l) as [c Hc]; [left|].
  unfold column. rewrite Hc. cbn.
  assert (Hin : c ∈ filter (λ c, c.1 = l) (df_columns d)) by (rewrite Hc; left).
  apply list_elem_of_filter in Hin as [<- _]. by destruct c.
Qed.

End Loop.

Lemma filter_length_elem {A} (P : A → Prop) `{∀ x, Decision (P x)} (l : list A) x :
  x ∈ l → P x → 1 ≤ length (filter P l).
Proof.
  intros Hx HP. assert (Hin : x ∈ filter P l) by by apply list_elem_of_filter.
  destruct (filter P l); [by apply elem_of_nil in Hin | cbn; lia].
Qed.

Lemma NoDup_labels_by_filter (cols : list (string * list Cell)) :
  (∀ l, l ∈ cols.*1 → length (filter (λ c, c.1 = l) cols) ≤ 1) → NoDup cols.*1.
Proof.
  induction cols as [|c0 cols IH]; intros Hle; [constructor|].
  rewrite fmap_cons. apply NoDup_cons. split.
  - intros Hin. apply list_elem_of_fmap in Hin as [c [Heq Hc]].
    specialize (Hle c0.1 ltac:(left)).
    rewrite filter_cons, decide_True in Hle by done. cbn in Hle.
    pose proof (filter_length_elem (λ c', c'.1 = c0.1) cols c Hc (eq_sym Heq)).
    lia.
  - apply IH. intros l Hl. specialize (Hle l ltac:(by right)).
    rewrite filter_cons in Hle. destruct (decide (c0.1 = l)); cbn in Hle; lia.
Qed.

Lemma duplicated_label (cols : list (string * list Cell)) :
  ¬ NoDup cols.*1 →
  ∃ l, l ∈ cols.*1 ∧ 2 ≤ length (filter (λ c, c.1 = l) cols).
Proof.
  intros Hdup.
  destruct (decide (Exists (λ l, 2 ≤ length (filter (λ c, c.1 = l) cols))
                           cols.*1)) as [Hex|Hex].
  - apply Exists_exists in Hex as [l [Hl Hlen]]. eauto.
  - exfalso. apply Hdup, NoDup_labels_by_filter. intros l Hl.
    apply not_Exists_Forall in Hex; [|intros; apply _].
    rewrite Forall_forall in Hex. specialize (Hex l Hl). cbn in Hex. lia.
Qed.

(** A label carried by two columns stops the loop with an exception. *)
Section LoopRaises.
Context {text : TextRuntime}.

Lemma coerce_loop_raises p (ls : list string) :
  ∀ w cur,
    w_heap w !! p = Some cur →
    (∃ l, l ∈ ls ∧ 2 ≤ length (filter (λ c, c.1 = l) (df_columns cur))) →
    ∃ cur' e,
      for_each ls (coerce_body p) w
      = (with_heap w (<[p := cur']> (w_heap w)), inl e).
Proof.
  induction ls as [|l0 ls IH]; intros w cur Hp [l [Hl Hlen]].
  - by apply elem_of_nil in Hl.
  - cbn [for_each].
    destruct (filter (λ c, c.1 = l0) (df_columns cur)) as [|c1 [|c2 cs]] eqn:Hf.
    + exists cur, (KeyError (py_repr_str l0)).
      rewrite insert_id, with_heap_id by done.
      apply bind_raise. unfold coerce_body.
      apply bind_raise. by eapply df_getitem_absent.
    + assert (Hl0 : l0 ∈ df_labels cur) by by eapply filter_nonempty_label.
      assert (Hne : l ≠ l0) by (intros ->; rewrite Hf in Hlen; cbn in Hlen; lia).
      apply elem_of_cons in Hl as [?|Hl]; [done|].
      erewrite bind_ok by by eapply coerce_body_unique.
      edestruct (IH (with_heap w (<[p := coerce_column cur l0]> (w_heap w))))
        as [cur' [e Hrun]].
      { cbn. apply lookup_insert_eq. }
      { exists l. split; [done|]. unfold coerce_column.
        by rewrite set_column_filter, length_fmap. }
      exists cur', e. rewrite Hrun. cbn [with_heap w_heap w_today w_files w_trace].
      by rewrite insert_insert_eq.
    + exists cur, (TypeError "arg must be a list, tuple, 1-d array, or Series").
      rewrite insert_id, with_heap_id by done.
      apply bind_raise. unfold coerce_body.
      erewrite bind_ok by by eapply df_getitem_frame.
      by apply bind_raise.
Qed.
End LoopRaises.



Lemma has_required_forallb (cols : list string) :
  forallb (λ col, bool_decide (col ∈ cols)) required_cols = true
  ↔ required_cols ⊆ cols.
Proof.
  rewrite forallb_forall. split.
  - intros Hall l Hl. apply list_elem_of_In, Hall in Hl.
    by apply bool_decide_eq_true in Hl.
  - intros Hsub l Hl. apply bool_decide_eq_true, Hsub. by apply list_elem_of_In.
Qed.

Section RenderRuns.
Context {chart : ChartLibrary} {text : TextRuntime}.

Lemma mpf_plot_run p type style title ylabel volume nontrading figscale path w d :
  w_heap w !! p = Some d →
  let call := mkPlotCall d type style title ylabel volume nontrading
                         figscale path in
  mpf_plot p type style title ylabel volume nontrading figscale path w
  = match mpf_render call with
    | inl e => (add_events w [EPlot call], inl e)
    | inr img =>
        (mkWorld (w_today w) (w_heap w) (<[path := img]> (w_files w))
                 (w_trace w ++ [EPlot call; ESave path img]), inr tt)
    end.
Proof.
  intros Hp call. unfold mpf_plot.
  erewrite bind_ok by by apply deref_ok.
  erewrite bind_ok by apply emit_add. fold call.
  destruct (mpf_render call) as [e|img].
  - by apply bind_raise.
  - erewrite bind_ok by reflexivity. unfold write_file, add_events. cbn.
    by rewrite <- (assoc_L (++)).
Qed.

Lemma render_empty data ticker w d :
  w_heap w !! data = Some d →
  df_empty d = true →
  create_candlestick_chart data ticker w
  = (add_events w [EPrint "No data to plot."], inr tt).
Proof.
  intros Hp Hem. unfold create_candlestick_chart.
  erewrite bind_ok by by apply df_get_empty_run. by rewrite Hem.
Qed.

Lemma render_missing data ticker w d :
  w_heap w !! data = Some d →
  df_empty d = false →
  ¬ required_cols ⊆ df_labels d →
  create_candlestick_chart data ticker w
  = (add_events w [EPrint (creating_line ticker); EPrint missing_line;
                   EPrint (available_line (df_labels d))], inr tt).
Proof.
  intros Hp Hem Hmiss. unfold create_candlestick_chart.
  erewrite bind_ok by by apply df_get_empty_run. rewrite Hem.
  erewrite bind_ok by apply emit_add.
  erewrite try_ok; [reflexivity|].
  erewrite bind_ok by by apply df_get_columns_run.
  destruct (forallb _ required_cols) eqn:Hall.
  { by apply has_required_forallb in Hall. }
  cbn [negb].
  erewrite bind_ok by apply emit_add.
  erewrite bind_ok by by apply df_get_columns_run.
  unfold print. by rewrite emit_add, !add_events_add.
Qed.



Lemma try_except_ext {A} (body body' : Py A) h w w' :
  body w = body' w' → try_except body h w = try_except body' h w'.
Proof. intros Heq. unfold try_except. by rewrite Heq. Qed.

(** The renderer up to the coercion loop: the two working copies are made,
    and the rest runs on the second. *)
Lemma render_prefix data ticker w d :
  w_heap w !! data = Some d →
  df_empty d = false →
  required_cols ⊆ df_labels d →
  let p1 := fresh (dom (w_heap w)) in
  let p2 := fresh (dom (<[p1 := selected d]> (w_heap w))) in
  create_candlestick_chart data ticker w
  = try_except
      (for_each (df_labels (selected d)) (coerce_body p2);;
       df_dropna_inplace p2;;
       mpf_plot p2 "candle" "charles" (title_text ticker) "Price"
                true false (3 # 2)%Q (save_path ticker);;
       print (saved_line ticker))
      (λ e, print (plotting_error_line e))
      (mkWorld (w_today w) (working_heap (w_heap w) (selected d) (selected d))
               (w_files w) (w_trace w ++ [EPrint (creating_line ticker)])).
Proof.
  intros Hp Hem Hreq p1 p2. unfold create_candlestick_chart.
  erewrite bind_ok by (by apply df_get_empty_run).
  rewrite Hem.
  erewrite bind_ok by apply emit_add.
  apply try_except_ext.
  erewrite bind_ok by (by apply df_get_columns_run).
  rewrite (proj2 (has_required_forallb _) Hreq). cbn [negb].
  erewrite bind_ok by (by apply df_getitem_list_run).
  erewrite bind_ok by (apply df_copy_run; apply lookup_insert_eq).
  erewrite bind_ok by (apply df_get_columns_run; apply lookup_insert_eq).
  reflexivity.
Qed.

Lemma render_clean data ticker w d :
  w_heap w !! data = Some d →
  df_empty d = false →
  required_cols ⊆ df_labels d →
  NoDup (df_labels (selected d)) →
  let call := chart_request (cleaned d) ticker in
  let h := working_heap (w_heap w) (selected d) (cleaned d) in
  create_candlestick_chart data ticker w
  = match mpf_render call with
    | inl e =>
        (mkWorld (w_today w) h (w_files w)
                 (w_trace w ++ [EPrint (creating_line ticker); EPlot call;
                                EPrint (plotting_error_line e)]), inr tt)
    | inr img =>
        (mkWorld (w_today w) h (<[save_path ticker := img]> (w_files w))
                 (w_trace w ++ [EPrint (creating_line ticker); EPlot call;
                                ESave (save_path ticker) img;
                                EPrint (saved_line ticker)]), inr tt)
    end.
Proof.
  intros Hp Hem Hreq Hnd call h.
  rewrite (render_prefix _ _ _ d) by done.
  set (p1 := fresh (dom (w_heap w))).
  set (p2 := fresh (dom (<[p1 := selected d]> (w_heap w)))).
  set (w3 := mkWorld _ _ _ _).
  assert (Hloop : for_each (df_labels (selected d)) (coerce_body p2) w3
                  = (with_heap w3 (<[p2 := coerce_columns (selected d)]> (w_heap w3)),
                     inr tt)).
  { rewrite <- foldl_coerce_all by done.
    apply coerce_loop_unique; [apply lookup_insert_eq|].
    intros l Hl. apply list_elem_of_fmap in Hl as [c [-> Hc]].
    exists c. by apply filter_label_NoDup. }
  assert (Hdrop : ∀ w', w' = with_heap w3 (<[p2 := coerce_columns (selected d)]> (w_heap w3)) →
            df_dropna_inplace p2 w' = (with_heap w3 h, inr tt)).
  { intros w' ->. erewrite df_dropna_inplace_run by apply lookup_insert_eq.
    cbn [with_heap w_heap w_today w_files w_trace w3].
    unfold h, working_heap. fold p1 p2. by rewrite !insert_insert_eq. }
  assert (Hplot := mpf_plot_run p2 "candle" "charles" (title_text ticker) "Price"
            true false (3 # 2)%Q (save_path ticker) (with_heap w3 h) (cleaned d)).
  cbn zeta in Hplot. fold (chart_request (cleaned d) ticker) in Hplot. fold call in Hplot.
  destruct (mpf_render call) as [e|img].
  - erewrite try_raise.
    2:{ erewrite bind_ok by exact Hloop.
        erewrite bind_ok by (by apply Hdrop).
        apply bind_raise. apply Hplot. apply lookup_insert_eq. }
    unfold print. rewrite emit_add. unfold add_events, with_heap, w3. cbn.
    by rewrite <- !(assoc_L (++)).
  - erewrite try_ok; [reflexivity|].
    erewrite bind_ok by exact Hloop.
    erewrite bind_ok by (by apply Hdrop).
    erewrite bind_ok by (apply Hplot; apply lookup_insert_eq).
    unfold print. rewrite emit_add. unfold add_events, with_heap, w3. cbn.
    by rewrite <- !(assoc_L (++)).
Qed.

Lemma render_duplicate data ticker w d :
  w_heap w !! data = Some d →
  df_empty d = false →
  required_cols ⊆ df_labels d →
  ¬ NoDup (df_labels (selected d)) →
  ∃ cur e,
    create_candlestick_chart data ticker w
    = (mkWorld (w_today w) (working_heap (w_heap w) (selected d) cur)
               (w_files w)
               (w_trace w ++ [EPrint (creating_line ticker);
                              EPrint (plotting_error_line e)]), inr tt).
Proof.
  intros Hp Hem Hreq Hdup.
  rewrite (render_prefix _ _ _ d) by done.
  set (p1 := fresh (dom (w_heap w))).
  set (p2 := fresh (dom (<[p1 := selected d]> (w_heap w)))).
  set (w3 := mkWorld _ _ _ _).
  destruct (coerce_loop_raises p2 (df_labels (selected d)) w3 (selected d))
    as [cur [e Hloop]].
  { apply lookup_insert_eq. }
  { by apply duplicated_label. }
  exists cur, e.
  erewrite try_raise by (apply bind_raise; exact Hloop).
  unfold print. rewrite emit_add. unfold add_events, with_heap, w3. cbn.
  unfold working_heap. fold p1 p2.
  by rewrite insert_insert_eq, <- !(assoc_L (++)).
Qed.
End RenderRuns.

Lemma required_cols_NoDup : NoDup required_cols.
Proof. by apply (bool_decide_unpack _); vm_compute. Qed.

Lemma named_once (d : DataFrame) (l : string) :
  NoDup (df_labels d) → l ∈ df_labels d →
  ∃ c, filter (λ c, c.1 = l) (df_columns d) = [c].
Proof.
  intros Hnd Hl. apply list_elem_of_fmap in Hl as [c [-> Hc]].
  exists c. by apply filter_label_NoDup.
Qed.

Lemma dropna_labels {L} (d : Frame L) : df_labels (dropna d) = df_labels d.
Proof.
  unfold df_labels, dropna. cbn [df_columns].
  rewrite <- list_fmap_compose. by apply list_fmap_ext.
Qed.

Lemma dropna_rectangular {L} (d : Frame L) : rectangular (dropna d).
Proof.
  unfold rectangular, dropna, df_nrows. cbn [df_columns df_index].
  apply Forall_fmap, Forall_forall. intros c _. cbn. by rewrite !length_fmap.
Qed.

Section Cleaning.
Context {text : TextRuntime}.

Lemma coerce_columns_labels (d : DataFrame) :
  df_labels (coerce_columns d) = df_labels d.
Proof.
  unfold df_labels, coerce_columns. cbn [df_columns].
  rewrite <- list_fmap_compose. by apply list_fmap_ext.
Qed.


Lemma selected_labels (d : DataFrame) :
  required_once d → df_labels (selected d) = required_cols.
Proof.
  intros Honce. unfold df_labels, selected. cbn [df_columns].
  rewrite select_columns_unique by done.
  rewrite <- list_fmap_compose. apply list_fmap_id.
Qed.

Lemma cleaned_labels (d : DataFrame) :
  required_once d → df_labels (cleaned d) = required_cols.
Proof.
  intros Honce. unfold cleaned.
  by rewrite dropna_labels, coerce_columns_labels, selected_labels.
Qed.

Lemma cleaned_rows (d : DataFrame) :
  required_once d → df_rows (cleaned d) = spec_clean_rows d.
Proof.
  intros Honce. unfold cleaned, spec_clean_rows.
  rewrite df_rows_dropna. f_equal.
  unfold df_rows. apply list_fmap_ext. intros _ i _.
  unfold df_row, spec_coerced_row, coerce_columns, selected.
  cbn [df_index df_columns]. f_equal.
  rewrite select_columns_unique by done.
  rewrite <- !list_fmap_compose. apply list_fmap_ext. intros _ l _.
  cbn. apply lookup_total_coerce.
Qed.
End Cleaning.

Lemma working_heap_old (h : gmap loc DataFrame) sel final l v :
  h !! l = Some v → working_heap h sel final !! l = Some v.
Proof.
  intros Hl. unfold working_heap.
  assert (H1 : fresh (dom h) ≠ l).
  { intros <-. apply (is_fresh (dom h)), elem_of_dom. eauto. }
  assert (H2 : fresh (dom (<[fresh (dom h) := sel]> h)) ≠ l).
  { assert (Hin : l ∈ dom (<[fresh (dom h) := sel]> h)).
    { rewrite dom_insert_L. apply elem_of_union_r, elem_of_dom. eauto. }
    intros Heq. rewrite <- Heq in Hin. by apply is_fresh in Hin. }
  by rewrite !lookup_insert_ne.
Qed.

(* ===================================================================== *)
(** * The renderer *)
(* ===================================================================== *)

Lemma fmap_flat_map {A B C} (f : B → C) (g : A → list B) (l : list A) :
  f <$> flat_map g l = flat_map (λ x, f <$> g x) l.
Proof.
  induction l as [|x l IH]; [done|].
  cbn [flat_map]. by rewrite fmap_app, IH.
Qed.

Lemma NoDup_flat_map_elem {A B} (g : A → list B) (l : list A) (x : A) :
  NoDup (flat_map g l) → x ∈ l → NoDup (g x).
Proof.
  induction l as [|y l IH]; intros Hnd Hx.
  - by apply elem_of_nil in Hx.
  - cbn [flat_map] in Hnd. apply NoDup_app in Hnd as (Hy & _ & Hl).
    apply elem_of_cons in Hx as [->|Hx]; [done|by apply IH].
Qed.

Lemma selected_once (d : DataFrame) :
  required_cols ⊆ df_labels d → NoDup (df_labels (selected d)) → required_once d.
Proof.
  intros Hreq Hnd l Hl.
  unfold df_labels, selected, select_columns in Hnd. cbn [df_columns] in Hnd.
  rewrite fmap_flat_map in Hnd.
  apply (NoDup_flat_map_elem _ _ l) in Hnd; [|done].
  apply Hreq, list_elem_of_fmap in Hl as [c [-> Hc]].
  destruct (filter (λ c', c'.1 = c.1) (df_columns d)) as [|c1 [|c2 cs]] eqn:Hf.
  - assert (Hin : c ∈ filter (λ c', c'.1 = c.1) (df_columns d))
      by (by apply list_elem_of_filter).
    rewrite Hf in Hin. by apply elem_of_nil in Hin.
  - eauto.
  - exfalso.
    assert (H1 : c1 ∈ filter (λ c', c'.1 = c.1) (df_columns d))
      by (rewrite Hf; left).
    assert (H2 : c2 ∈ filter (λ c', c'.1 = c.1) (df_columns d))
      by (rewrite Hf; right; left).
    apply list_elem_of_filter in H1 as [H1 _].
    apply list_elem_of_filter in H2 as [H2 _].
    rewrite !fmap_cons in Hnd. apply NoDup_cons in Hnd as [Hnd _].
    apply Hnd. rewrite H1, <- H2. left.
Qed.

Lemma once_required (d : DataFrame) :
  NoDup (df_labels d) → required_cols ⊆ df_labels d → required_once d.
Proof. intros Hnd Hreq l Hl. by apply named_once, Hreq. Qed.

Lemma once_selected_NoDup (d : DataFrame) :
  required_once d → NoDup (df_labels (selected d)).
Proof. intros Honce. rewrite selected_labels by done. apply required_cols_NoDup. Qed.

Lemma df_rows_nil {L} (d : Frame L) : df_rows d = [] → df_index d = [].
Proof.
  unfold df_rows, df_nrows. destruct (df_index d); [done|].
  intros Hnil. by apply fmap_nil_inv in Hnil.
Qed.

Lemma filter_all {A} (P : A → Prop) `{∀ x, Decision (P x)} (l : list A) :
  Forall P l → filter P l = l.
Proof.
  induction 1 as [|x l Hx Hl IH]; [done|].
  by rewrite filter_cons, decide_True, IH.
Qed.

Lemma seq_split_at (n i : nat) :
  i < n → seq 0 n = seq 0 i ++ i :: seq (S i) (n - S i).
Proof.
  intros Hi. replace n with (i + S (n - S i)) at 1 by lia.
  by rewrite seq_app.
Qed.

Section Renderer.
Context {chart : ChartLibrary} {text : TextRuntime}.

Lemma spec_clean_rows_one_bad (d : DataFrame) (i0 : nat) :
  i0 < df_nrows d →
  ¬ complete (spec_coerced_row d i0) →
  (∀ i, i < df_nrows d → i ≠ i0 → complete (spec_coerced_row d i)) →
  spec_clean_rows d
  = spec_coerced_row d <$> (seq 0 i0 ++ seq (S i0) (df_nrows d - S i0)).
Proof.
  intros Hi0 Hbad Hgood. unfold spec_clean_rows.
  rewrite (seq_split_at (df_nrows d) i0) by done.
  rewrite !fmap_app, fmap_cons, !filter_app, filter_cons, decide_False by done.
  rewrite !filter_all; [done| |].
  - apply Forall_fmap, Forall_forall. intros i Hi.
    apply elem_of_seq in Hi. apply Hgood; lia.
  - apply Forall_fmap, Forall_forall. intros i Hi.
    apply elem_of_seq in Hi. apply Hgood; lia.
Qed.

Lemma bad_close_incomplete (d : DataFrame) (i : nat) :
  isna (coerce_cell (column d "Close" !!! i)) = true →
  ¬ complete (spec_coerced_row d i).
Proof.
  intros Hna Hc. unfold complete, spec_coerced_row in Hc. cbn [snd] in Hc.
  rewrite Forall_forall in Hc.
  specialize (Hc (coerce_cell (column d "Close" !!! i))).
  rewrite Hc in Hna; [done|].
  apply list_elem_of_fmap. exists "Close". split; [done|].
  unfold required_cols. do 3 right. left.
Qed.

(** C1, as the code has it.  For a table in which each of the five
    required labels names exactly one column, the renderer hands the chart
    library a table with exactly the five columns whose rows are the rows
    of the input, coerced to numeric, that have no missing value among the
    five, in their original order.  (A table without rows has nothing to
    pass, and the chart library is not called.)  In particular, when one
    row has a non-numeric close and every other row is complete, the rows
    passed are all the rows but that one.  Other columns may be there, and
    may repeat their labels. *)
Theorem clean_rows_reach_chart_library
    (w : World) (data : loc) (d : DataFrame) (ticker : string) :
  w_heap w !! data = Some d →
  required_once d →
  ∃ plot_data : DataFrame,
    plot_calls (w_trace (create_candlestick_chart data ticker w).1)
    = plot_calls (w_trace w)
        ++ (if df_empty d then [] else [chart_request plot_data ticker])
    ∧ df_labels plot_data = required_cols
    ∧ rectangular plot_data
    ∧ df_rows plot_data = spec_clean_rows d
    ∧ (∀ r, r ∈ df_rows plot_data
            ↔ ∃ i, i < df_nrows d ∧ r = spec_coerced_row d i ∧ complete r)
    ∧ (∀ i0, i0 < df_nrows d →
         isna (coerce_cell (column d "Close" !!! i0)) = true →
         (∀ i, i < df_nrows d → i ≠ i0 → complete (spec_coerced_row d i)) →
         df_rows plot_data
         = spec_coerced_row d
             <$> (seq 0 i0 ++ seq (S i0) (df_nrows d - S i0))).
Proof.
  intros Hp Honce.
  assert (Hreq : required_cols ⊆ df_labels d).
  { intros l Hl. destruct (Honce l Hl) as [c Hc].
    by eapply filter_nonempty_label. }
  exists (cleaned d).
  assert (Hrows : df_rows (cleaned d) = spec_clean_rows d) by by apply cleaned_rows.
  split; [|split; [|split; [|split; [|split]]]].
  - destruct (df_empty d) eqn:Hem.
    + rewrite (render_empty _ _ _ d) by done. cbn.
      unfold plot_calls. by rewrite omap_app.
    + rewrite (render_clean _ _ _ d)
        by (try done; by apply once_selected_NoDup).
      destruct (mpf_render _); cbn; unfold plot_calls; by rewrite omap_app.
  - by apply cleaned_labels.
  - apply dropna_rectangular.
  - done.
  - intros r. rewrite Hrows. unfold spec_clean_rows.
    rewrite list_elem_of_filter, list_elem_of_fmap. split.
    + intros [Hc [i [-> Hi]]]. apply elem_of_seq in Hi.
      exists i. split; [lia|done].
    + intros [i [Hi [-> Hc]]]. split; [done|].
      exists i. split; [done|]. apply elem_of_seq. lia.
  - intros i0 Hi0 Hbad Hgood. rewrite Hrows.
    apply spec_clean_rows_one_bad; [done| |done].
    by apply bad_close_incomplete.
Qed.

Lemma render_dangling data ticker w :
  w_heap w !! data = None →
  create_candlestick_chart data ticker w
  = (w, inl (mkExc "ReferenceError" "no such object")).
Proof.
  intros Hp. unfold create_candlestick_chart.
  apply bind_raise. unfold df_get_empty. apply bind_raise.
  unfold deref. by rewrite Hp.
Qed.

(** C2, as the code has it.  For a table that lacks one of the five
    required columns the renderer stops before any plotting: the chart
    library is not called, no file is written and the directory is as it
    was.  An empty table is reported as having no data; for any other the
    renderer prints one line that lists the five required columns
    (whichever of them is missing) and one that lists the columns present. *)
Theorem missing_columns_abort
    (w : World) (data : loc) (d : DataFrame) (ticker : string) :
  w_heap w !! data = Some d →
  ¬ required_cols ⊆ df_labels d →
  let w' := (create_candlestick_chart data ticker w).1 in
  create_candlestick_chart data ticker w
  = (add_events w
       (if df_empty d
        then [EPrint "No data to plot."]
        else [EPrint ("Creating candlestick chart for " +:+ ticker +:+ "...");
              EPrint ("Error: Missing one or more required columns for plotting: "
                      +:+ "['Open', 'High', 'Low', 'Close', 'Volume']");
              EPrint ("Available columns: " +:+ py_repr_list (df_labels d))]),
     inr tt)
  ∧ plot_calls (w_trace w') = plot_calls (w_trace w)
  ∧ file_writes (w_trace w') = file_writes (w_trace w)
  ∧ w_files w' = w_files w.
Proof.
  intros Hp Hmiss w'.
  assert (Hrun : create_candlestick_chart data ticker w
    = (add_events w
       (if df_empty d
        then [EPrint "No data to plot."]
        else [EPrint (creating_line ticker); EPrint missing_line;
              EPrint (available_line (df_labels d))]), inr tt)).
  { destruct (df_empty d) eqn:Hem.
    - by eapply render_empty.
    - by eapply render_missing. }
  split; [exact Hrun|]. unfold w'. rewrite Hrun. cbn.
  unfold plot_calls, file_writes. rewrite !omap_app.
  by destruct (df_empty d); cbn; rewrite !(right_id_L [] (++)).
Qed.

(** C9. Whatever table and symbol the renderer is given, every table that
    exists before the call, the input among them, holds the same index and
    cells after it: selection, coercion and row dropping work on tables the
    renderer creates. *)
Theorem input_table_unchanged
    (w : World) (data : loc) (ticker : string) (l : loc) (v : DataFrame) :
  w_heap w !! l = Some v →
  w_heap (create_candlestick_chart data ticker w).1 !! l = Some v.
Proof.
  intros Hl. destruct (w_heap w !! data) as [d|] eqn:Hp.
  2:{ by rewrite render_dangling. }
  destruct (df_empty d) eqn:Hem.
  { by rewrite (render_empty _ _ _ d). }
  destruct (decide (required_cols ⊆ df_labels d)) as [Hreq|Hreq].
  2:{ by rewrite (render_missing _ _ _ d). }
  destruct (decide (NoDup (df_labels (selected d)))) as [Hnd|Hnd].
  - rewrite (render_clean _ _ _ d) by done.
    destruct (mpf_render _); cbn; by apply working_heap_old.
  - destruct (render_duplicate data ticker w d) as [cur [e ->]]; try done.
    cbn. by apply working_heap_old.
Qed.

(** C3. Given a chart library that refuses a table without rows (as
    mplfinance does, by raising), a table that is empty before cleaning, or
    whose rows are all dropped by cleaning, yields no image: the renderer
    returns normally, writes no file, leaves the directory as it was, and
    the last thing it prints is a diagnostic. *)
Theorem empty_table_no_image
    (w : World) (data : loc) (d : DataFrame) (ticker : string) :
  w_heap w !! data = Some d →
  (∀ call, df_index (pc_data call) = [] → ∃ e, mpf_render call = inl e) →
  df_empty d = true ∨ spec_clean_rows d = [] →
  ∃ evs line,
    (create_candlestick_chart data ticker w).2 = inr tt
    ∧ w_trace (create_candlestick_chart data ticker w).1
      = w_trace w ++ evs ++ [EPrint line]
    ∧ file_writes evs = []
    ∧ w_files (create_candlestick_chart data ticker w).1 = w_files w
    ∧ (line = "No data to plot."
       ∨ line = available_line (df_labels d)
       ∨ ∃ e, line = plotting_error_line e).
Proof.
  intros Hp Hlib Hempty.
  destruct (df_empty d) eqn:Hem.
  { exists [], "No data to plot.". rewrite (render_empty _ _ _ d) by done.
    repeat split; auto. }
  destruct Hempty as [?|Hclean]; [done|].
  destruct (decide (required_cols ⊆ df_labels d)) as [Hreq|Hreq].
  2:{ exists [EPrint (creating_line ticker); EPrint missing_line],
             (available_line (df_labels d)).
      rewrite (render_missing _ _ _ d) by done. repeat split; auto. }
  destruct (decide (NoDup (df_labels (selected d)))) as [Hnd|Hnd].
  - assert (Hidx : df_index (cleaned d) = []).
    { apply df_rows_nil. rewrite cleaned_rows; [done|]. by apply selected_once. }
    destruct (Hlib (chart_request (cleaned d) ticker) Hidx) as [e He].
    exists [EPrint (creating_line ticker); EPlot (chart_request (cleaned d) ticker)],
           (plotting_error_line e).
    rewrite (render_clean _ _ _ d), He by done.
    repeat split; eauto.
  - destruct (render_duplicate data ticker w d) as [cur [e ->]]; try done.
    exists [EPrint (creating_line ticker)], (plotting_error_line e).
    repeat split; eauto.
Qed.

(** Emptiness after cleaning is not tested by the renderer: the table
    without rows is sent to the chart library like any other, and what
    happens next is the library's answer. *)
Lemma cleaned_empty_is_requested
    (w : World) (data : loc) (d : DataFrame) (ticker : string) :
  w_heap w !! data = Some d →
  df_empty d = false →
  required_once d →
  spec_clean_rows d = [] →
  plot_calls (w_trace (create_candlestick_chart data ticker w).1)
  = plot_calls (w_trace w) ++ [chart_request (cleaned d) ticker]
  ∧ df_index (cleaned d) = [].
Proof.
  intros Hp Hem Honce Hclean. split.
  - assert (Hreq : required_cols ⊆ df_labels d).
    { intros l Hl. destruct (Honce l Hl) as [c Hc].
      by eapply filter_nonempty_label. }
    rewrite (render_clean _ _ _ d) by (try done; by apply once_selected_NoDup).
    destruct (mpf_render _); cbn; unfold plot_calls; by rewrite omap_app.
  - apply df_rows_nil. by rewrite cleaned_rows.
Qed.

(** C8. A render succeeds when the chart library renders the request it
    is sent.  Then the run is: the announcement, that one request, one file
    write, the confirmation.  The request asks for a candlestick chart with
    the volume panel, the title "<symbol> Candlestick Chart", the y-axis
    label "Price", non-trading periods left out, saved as
    "<symbol>_candlestick_chart.png"; the image is written under that
    name, replacing whatever the directory held there, and nothing else in
    the directory changes. *)
Theorem successful_render_writes_one_file
    (w : World) (data : loc) (d : DataFrame) (ticker : string)
    (evs : list Event) (call : PlotCall) (img : Image) :
  w_heap w !! data = Some d →
  w_trace (create_candlestick_chart data ticker w).1 = w_trace w ++ evs →
  call ∈ plot_calls evs →
  mpf_render call = inr img →
  let path := ticker +:+ "_candlestick_chart.png" in
  evs = [EPrint ("Creating candlestick chart for " +:+ ticker +:+ "...");
         EPlot call; ESave path img; EPrint ("Chart saved as " +:+ path)]
  ∧ plot_calls evs = [call]
  ∧ file_writes evs = [(path, img)]
  ∧ call = mkPlotCall (pc_data call) "candle" "charles"
             (ticker +:+ " Candlestick Chart") "Price" true false (3 # 2)%Q path
  ∧ w_files (create_candlestick_chart data ticker w).1
    = <[path := img]> (w_files w).
Proof.
  intros Hp Hev Hcall Hok path.
  destruct (df_empty d) eqn:Hem.
  { rewrite (render_empty _ _ _ d) in Hev by done. cbn in Hev.
    apply app_inv_head in Hev as <-. by apply elem_of_nil in Hcall. }
  destruct (decide (required_cols ⊆ df_labels d)) as [Hreq|Hreq].
  2:{ rewrite (render_missing _ _ _ d) in Hev by done. cbn in Hev.
      apply app_inv_head in Hev as <-. by apply elem_of_nil in Hcall. }
  destruct (decide (NoDup (df_labels (selected d)))) as [Hnd|Hnd].
  2:{ destruct (render_duplicate data ticker w d) as [cur [e Hrun]]; try done.
      rewrite Hrun in Hev. cbn in Hev.
      apply app_inv_head in Hev as <-. by apply elem_of_nil in Hcall. }
  rewrite (render_clean _ _ _ d) in Hev |- * by done.
  destruct (mpf_render (chart_request (cleaned d) ticker)) as [e|img'] eqn:Hr;
    cbn in Hev; apply app_inv_head in Hev as <-;
    cbn in Hcall; apply list_elem_of_singleton in Hcall as ->.
  - congruence.
  - assert (img' = img) as -> by congruence. done.
Qed.
End Renderer.

(* ===================================================================== *)
(** * Concrete runs *)
(* ===================================================================== *)

(** The provider is unreachable for an unknown symbol: the dates default
    to the last 365 days, one request is made, the result is empty. *)
Lemma provider_error_run :
  yf_download (Provider:=small_provider) (TStr "NOPE")
    (start_arg (text:=plain_text) (world_with bars_aapl) None)
    (end_arg (text:=plain_text) (world_with bars_aapl) None) "1d"
  = inl (mkExc "ConnectionError" "provider unreachable")
  ∧ (MarketData.get_historical_data (provider:=small_provider)
       (text:=plain_text) (TStr "NOPE") None None "1d"
       (world_with bars_aapl)).2
    = inr (PlainFrame df_new_empty)
  ∧ (MarketDataGraph.get_historical_data (provider:=small_provider)
       (text:=plain_text) (TStr "NOPE") None None "1d"
       (world_with bars_aapl)).2
    = inr (RFrame (PlainFrame df_new_empty)).
Proof.
  split; [reflexivity|].
  destruct (get_historical_data_provider_error
              (provider:=small_provider) (text:=plain_text)
              (TStr "NOPE") None None "1d" (world_with bars_aapl)
              (mkExc "ConnectionError" "provider unreachable") eq_refl)
    as (Hsimple & Hgraph & _).
  split.
  - rewrite Hsimple. reflexivity.
  - rewrite Hgraph. reflexivity.
Defined.

(** The metadata lookup fails for an unknown symbol and gives [None]. *)
Lemma ticker_error_run :
  yf_Ticker (Provider:=small_provider) "NOPE"
  = inl (mkExc "ConnectionError" "provider unreachable")
  ∧ (MarketData.get_ticker_info (provider:=small_provider) "NOPE"
       (world_with bars_aapl)).2 = inr None
  ∧ (MarketDataGraph.get_ticker_info (provider:=small_provider) "NOPE"
       (world_with bars_aapl)).2 = inr None.
Proof.
  split; [reflexivity|].
  destruct (get_ticker_info_provider_error (provider:=small_provider)
              "NOPE" (world_with bars_aapl)
              (mkExc "ConnectionError" "provider unreachable") eq_refl)
    as [Hsimple Hgraph].
  split.
  - rewrite Hsimple. reflexivity.
  - rewrite Hgraph. reflexivity.
Defined.

(** Two symbols: the mapping has the two keys, and the MSFT entry has the
    two rows of the combined table. *)
Lemma two_symbols_run :
  ∃ d : gmap string DataFrame,
    (MarketDataGraph.get_historical_data (provider:=small_provider)
       (text:=plain_text) (TList ["MSFT"; "GOOGL"]) None None "1mo"
       (world_with bars_aapl)).2 = inr (RDict d)
    ∧ dom d = {["MSFT"; "GOOGL"]}
    ∧ ∃ dt, d !! "MSFT" = Some dt
            ∧ df_columns dt = [("Close", [num 247; num 249]);
                               ("Volume", [num 700; num 800])]
            ∧ df_nrows dt = 2.
Proof.
  destruct (split_per_symbol (provider:=small_provider) (text:=plain_text)
              ["MSFT"; "GOOGL"] None None "1mo" (world_with bars_aapl)
              bars_two_symbols)
    as (d & Hrun & Hdom & Hentries).
  - cbn. lia.
  - reflexivity.
  - reflexivity.
  - intros t Ht. apply (bool_decide_unpack _).
    apply elem_of_cons in Ht as [->|Ht]; [vm_compute; exact I|].
    apply elem_of_cons in Ht as [->|Ht]; [vm_compute; exact I|].
    by apply elem_of_nil in Ht.
  - exists d. split; [exact Hrun|]. split.
    + rewrite Hdom. cbn. by rewrite (right_id_L ∅ (∪)).
    + destruct (Hentries "MSFT" ltac:(left)) as (dt & Hdt & _ & _ & Hcols & Hn).
      exists dt. split; [exact Hdt|]. split; [rewrite Hcols; reflexivity|exact Hn].
Defined.

(** The three AAPL bars: the second, whose close is "n/a", is dropped; the
    third, whose open is the text "126", is kept as a number. *)
Lemma aapl_rows_plotted :
  ∃ plot_data : DataFrame,
    plot_calls (w_trace (render_in bars_aapl).1)
    = [chart_request plot_data "AAPL"]
    ∧ df_rows plot_data
      = [(19358%Z, [num 130; num 131; num 124; num 125; num 1120]);
         (19360%Z, [num 126; num 128; num 125; num 127; num 806])].
Proof.
  destruct (clean_rows_reach_chart_library (chart:=strict_chart)
              (text:=plain_text) (world_with bars_aapl) 1%positive
              bars_aapl "AAPL")
    as (plot_data & Hcalls & _ & _ & Hrows & _ & Hone).
  - reflexivity.
  - intros l Hl.
    repeat (apply elem_of_cons in Hl as [->|Hl];
            [eexists; vm_compute; reflexivity|]).
    by apply elem_of_nil in Hl.
  - exists plot_data. split; [exact Hcalls|].
    rewrite (Hone 1).
    + reflexivity.
    + cbn. lia.
    + reflexivity.
    + intros i Hi Hne. apply (bool_decide_unpack _).
      destruct i as [|[|[|i]]]; [vm_compute; exact I|done|vm_compute; exact I|].
      cbn in Hi. lia.
Defined.

(** A table can contain the five columns and still reach no chart: the
    bar whose close column comes twice has all five labels and a complete
    row, yet [pd.to_numeric] is handed the two close columns as a table and
    raises, so the chart library is sent nothing. *)
Lemma close_twice_reaches_no_chart :
  required_cols ⊆ df_labels bars_close_twice
  ∧ df_empty bars_close_twice = false
  ∧ spec_clean_rows (text:=plain_text) bars_close_twice
    = [(19358%Z, [num 130; num 131; num 124; num 125; num 1120])]
  ∧ w_trace (render_in bars_close_twice).1
    = [EPrint "Creating candlestick chart for AAPL...";
       EPrint "An error occurred while plotting: arg must be a list, tuple, 1-d array, or Series"]
  ∧ ¬ ∃ plot_data : DataFrame,
        plot_calls (w_trace (render_in bars_close_twice).1)
        = plot_calls (w_trace (world_with bars_close_twice))
            ++ (if df_empty bars_close_twice then []
                else [chart_request plot_data "AAPL"])
        ∧ df_rows plot_data
          = spec_clean_rows (text:=plain_text) bars_close_twice.
Proof.
  split; [apply (bool_decide_unpack _); vm_compute; exact I|].
  split; [reflexivity|].
  split; [vm_compute; reflexivity|].
  assert (Htrace : w_trace (render_in bars_close_twice).1
    = [EPrint "Creating candlestick chart for AAPL...";
       EPrint "An error occurred while plotting: arg must be a list, tuple, 1-d array, or Series"])
    by (vm_compute; reflexivity).
  split; [exact Htrace|].
  intros (plot_data & Hcalls & _). rewrite Htrace in Hcalls.
  cbn in Hcalls. discriminate.
Qed.

(** Without the volume column nothing is plotted and nothing written. *)
Lemma no_volume_run :
  ¬ required_cols ⊆ df_labels bars_no_volume
  ∧ plot_calls (w_trace (render_in bars_no_volume).1) = []
  ∧ file_writes (w_trace (render_in bars_no_volume).1) = []
  ∧ w_files (render_in bars_no_volume).1 = w_files (world_with bars_no_volume).
Proof.
  assert (Hmiss : ¬ required_cols ⊆ df_labels bars_no_volume).
  { apply (bool_decide_unpack _). vm_compute. exact I. }
  split; [exact Hmiss|].
  destruct (missing_columns_abort (chart:=strict_chart) (text:=plain_text)
              (world_with bars_no_volume) 1%positive bars_no_volume "AAPL"
              eq_refl Hmiss)
    as (_ & Hplot & Hfiles & Hdir).
  split; [exact Hplot|]. split; [exact Hfiles|exact Hdir].
Defined.

(** The diagnostic for the table without its volume column names all five
    required columns on one line and the four present ones on the next: no
    line lists the missing set, which is the volume column alone. *)
Lemma missing_volume_diagnostic_lists_required :
  missing_cols bars_no_volume = ["Volume"]
  ∧ printed (w_trace (render_in bars_no_volume).1)
    = ["Creating candlestick chart for AAPL...";
       "Error: Missing one or more required columns for plotting: ['Open', 'High', 'Low', 'Close', 'Volume']";
       "Available columns: ['Open', 'High', 'Low', 'Close']"]
  ∧ ¬ ∃ line, line ∈ printed (w_trace (render_in bars_no_volume).1)
              ∧ lists_missing_set line bars_no_volume.
Proof.
  assert (Hmiss : missing_cols bars_no_volume = ["Volume"]) by (vm_compute; reflexivity).
  assert (Hprinted : printed (w_trace (render_in bars_no_volume).1)
    = ["Creating candlestick chart for AAPL...";
       "Error: Missing one or more required columns for plotting: ['Open', 'High', 'Low', 'Close', 'Volume']";
       "Available columns: ['Open', 'High', 'Low', 'Close']"]) by (vm_compute; reflexivity).
  split; [exact Hmiss|]. split; [exact Hprinted|].
  intros (line & Hin & Hlists). rewrite Hprinted in Hin.
  unfold lists_missing_set in Hlists. rewrite Hmiss in Hlists.
  assert (Hvolume : "Volume" ∈ required_cols) by (unfold required_cols; do 4 right; left).
  assert (Hopen : "Open" ∈ required_cols) by left.
  apply elem_of_cons in Hin as [->|Hin].
  { apply Hlists in Hvolume as [_ Hnamed].
    specialize (Hnamed ltac:(left)). vm_compute in Hnamed. discriminate. }
  apply elem_of_cons in Hin as [->|Hin].
  { apply Hlists in Hopen as [Hnamed _].
    specialize (Hnamed eq_refl).
    apply list_elem_of_singleton in Hnamed. discriminate. }
  apply elem_of_cons in Hin as [->|Hin].
  { apply Hlists in Hvolume as [_ Hnamed].
    specialize (Hnamed ltac:(left)). vm_compute in Hnamed. discriminate. }
  by apply elem_of_nil in Hin.
Qed.

(** Bars that cleaning empties: the strict chart library refuses them, no
    file is written, and the last line printed reports the error. *)
Lemma unusable_bars_run :
  spec_clean_rows (text:=plain_text) bars_unusable = []
  ∧ (render_in bars_unusable).2 = inr tt
  ∧ file_writes (w_trace (render_in bars_unusable).1) = []
  ∧ w_files (render_in bars_unusable).1 = w_files (world_with bars_unusable).
Proof.
  assert (Hclean : spec_clean_rows (text:=plain_text) bars_unusable = [])
    by (vm_compute; reflexivity).
  split; [exact Hclean|].
  destruct (empty_table_no_image (chart:=strict_chart) (text:=plain_text)
              (world_with bars_unusable) 1%positive bars_unusable "AAPL"
              eq_refl)
    as (evs & line & Hret & Htrace & Hwrites & Hdir & _).
  - intros call Hrows. cbn. rewrite Hrows. eauto.
  - right. exact Hclean.
  - split; [exact Hret|]. split; [|exact Hdir].
    fold (render_in bars_unusable) in Htrace. rewrite Htrace. cbn.
    unfold file_writes in *. by rewrite omap_app, Hwrites.
Defined.

(** The AAPL chart is written over the image that was there. *)
Lemma aapl_chart_saved :
  mpf_render (ChartLibrary:=strict_chart) aapl_request
  = inr "PNG:AAPL Candlestick Chart"
  ∧ file_writes (w_trace (render_in bars_aapl).1)
    = [("AAPL_candlestick_chart.png", "PNG:AAPL Candlestick Chart")]
  ∧ w_files (world_with bars_aapl) !! "AAPL_candlestick_chart.png"
    = Some "old image"
  ∧ w_files (render_in bars_aapl).1
    = {[ "AAPL_candlestick_chart.png" := "PNG:AAPL Candlestick Chart" ]}.
Proof.
  split; [reflexivity|].
  destruct (successful_render_writes_one_file (chart:=strict_chart)
              (text:=plain_text) (world_with bars_aapl) 1%positive bars_aapl
              "AAPL" (w_trace (render_in bars_aapl).1) aapl_request
              "PNG:AAPL Candlestick Chart")
    as (Hevs & _ & _ & _ & Hdir).
  - reflexivity.
  - reflexivity.
  - assert (Hcalls : plot_calls (w_trace (render_in bars_aapl).1) = [aapl_request])
      by (vm_compute; reflexivity).
    rewrite Hcalls. left.
  - reflexivity.
  - split; [by rewrite Hevs|]. split; [reflexivity|].
    fold (render_in bars_aapl) in Hdir. rewrite Hdir. cbn.
    by rewrite insert_singleton_eq.
Defined.

(** The AAPL table is still what it was after its chart is drawn. *)
Lemma aapl_table_kept :
  w_heap (world_with bars_aapl) !! 1%positive = Some bars_aapl
  ∧ w_heap (render_in bars_aapl).1 !! 1%positive = Some bars_aapl.
Proof.
  split; [reflexivity|].
  apply (input_table_unchanged (chart:=strict_chart) (text:=plain_text)
           (world_with bars_aapl) 1%positive "AAPL" 1%positive bars_aapl).
  reflexivity.
Defined.

(** With a chart library that renders a table without rows, the unusable
    bars do produce a file: the renderer itself does not stop them. *)
Example unusable_bars_lenient_library :
  file_writes
    (w_trace (create_candlestick_chart (chart:=lenient_chart)
                (text:=plain_text) 1%positive "AAPL"
                (world_with bars_unusable)).1)
  = [("AAPL_candlestick_chart.png", "PNG:AAPL Candlestick Chart")].
Proof. vm_compute. reflexivity. Qed.

(** On 2024-03-01 the default window starts on 2023-03-02: 365 days, not
    a calendar year, back. *)
Example default_window_2024_03_01 :
  (default_start (text:=plain_text) None (world_with bars_aapl)).2
    = inr "2023-03-02"
  ∧ (default_end (text:=plain_text) None (world_with bars_aapl)).2
    = inr "2024-03-01".
Proof. split; vm_compute; reflexivity. Qed.

(** The lines printed while the AAPL chart is drawn. *)
Example aapl_printed :
  printed (w_trace (render_in bars_aapl).1)
  = ["Creating candlestick chart for AAPL...";
     "Chart saved as AAPL_candlestick_chart.png"].
Proof. vm_compute. reflexivity. Qed.

(** A table that repeats the close column is refused by [pd.to_numeric]:
    the error is reported and nothing is plotted. *)
Example repeated_close_column :
  w_trace
    (create_candlestick_chart (chart:=strict_chart) (text:=plain_text)
       1%positive "AAPL"
       (world_with
          (mkFrame [19358]%Z
             [("Open", [num 130]); ("High", [num 131]); ("Low", [num 124]);
              ("Close", [num 125]); ("Close", [num 126]);
              ("Volume", [num 1120])]))).1
  = [EPrint "Creating candlestick chart for AAPL...";
     EPrint "An error occurred while plotting: arg must be a list, tuple, 1-d array, or Series"].
Proof. vm_compute. reflexivity. Qed.

(** The single-element list: the table itself on success, the empty
    mapping on failure. *)
Example one_symbol_list_shapes :
  (MarketDataGraph.get_historical_data (provider:=small_provider)
     (text:=plain_text) (TList ["NOPE"]) None None "1d"
     (world_with bars_aapl)).2 = inr (RDict ∅).
Proof. vm_compute. reflexivity. Qed.

(* ===================================================================== *)
(** * More on the fetchers *)
(* ===================================================================== *)

Lemma collect_from_answers {V} (g : string → Exception + V)
    (keys : list string) :
  ∀ (acc d : gmap string V),
    collect_from acc keys g = inr d →
    (∀ k, k ∈ keys → ∃ v, g k = inr v)
    ∧ dom d = dom acc ∪ list_to_set keys.
Proof.
  induction keys as [|k ks IH]; intros acc d Hc; cbn [collect_from] in Hc.
  - injection Hc as <-. split.
    + intros k Hk. by apply elem_of_nil in Hk.
    + cbn. by rewrite (right_id_L ∅ (∪)).
  - destruct (g k) as [e|v] eqn:Hk; [done|].
    apply IH in Hc as [Hks Hdom]. split.
    + intros k' Hk'. apply elem_of_cons in Hk' as [->|Hk']; eauto.
    + rewrite Hdom, dom_insert_L. cbn.
      rewrite (comm_L (∪) {[k]} (dom acc)). by rewrite (assoc_L (∪)).
Qed.

Lemma collect_from_first_failure {V} (g : string → Exception + V)
    (pre : list string) (k0 : string) (post : list string) (e : Exception) :
  ∀ acc : gmap string V,
    (∀ k, k ∈ pre → ∃ v, g k = inr v) →
    g k0 = inl e →
    collect_from acc (pre ++ k0 :: post) g = inl e.
Proof.
  induction pre as [|k ks IH]; intros acc Hpre Hk0; cbn.
  - by rewrite Hk0.
  - destruct (Hpre k) as [v Hv]; [left|]. rewrite Hv.
    apply IH; [|done]. intros k' Hk'. apply Hpre. by right.
Qed.

Lemma xs_level1_uncovered (m : Frame (string * string)) (t : string) :
  t ∉ (df_labels m).*2 →
  xs_level1 t (MultiFrame m) = inl (KeyError (py_repr_str t)).
Proof.
  intros Hout. unfold xs_level1.
  destruct (filter (λ c, c.1.2 = t) (df_columns m)) as [|c cs] eqn:Hf; [done|].
  exfalso. apply Hout.
  assert (Hc : c ∈ filter (λ c, c.1.2 = t) (df_columns m)) by (rewrite Hf; left).
  apply list_elem_of_filter in Hc as [<- Hc].
  unfold df_labels. rewrite <- list_fmap_compose.
  apply list_elem_of_fmap. by exists c.
Qed.

Lemma xs_level1_answers (data : PyFrame) (t : string) (dt : DataFrame) :
  xs_level1 t data = inr dt →
  ∃ m, data = MultiFrame m ∧ t ∈ (df_labels m).*2.
Proof.
  destruct data as [d|m]; [done|]. intros Hxs. exists m. split; [done|].
  destruct (decide (t ∈ (df_labels m).*2)) as [|Hout]; [done|].
  by rewrite xs_level1_uncovered in Hxs.
Qed.

Section FetchMore.
Context {provider : Provider} {text : TextRuntime}.

Lemma ticker_lookup_answers ticker w handle :
  yf_Ticker ticker = inr handle →
  ticker_lookup ticker w = (add_events w [ETickerLookup ticker], inr handle).
Proof.
  intros Hp. unfold ticker_lookup.
  erewrite bind_ok by apply emit_add. by rewrite Hp.
Qed.

(** The whole of [get_ticker_info], the same in both files. *)
Lemma ticker_info_run (ticker : string) (w : World) :
  let asked := [EPrint ("Fetching information for ticker: " +:+ ticker +:+ "...");
                ETickerLookup ticker] in
  let result :=
    match yf_Ticker ticker with
    | inl err =>
        (add_events w (asked ++ [EPrint ("An error occurred: " +:+ exc_str err)]),
         inr None)
    | inr handle => (add_events w asked, inr (Some handle))
    end in
  MarketData.get_ticker_info ticker w = result
  ∧ MarketDataGraph.get_ticker_info ticker w = result.
Proof.
  intros asked result. unfold result.
  destruct (yf_Ticker ticker) as [err|handle] eqn:Hp.
  - split; py_prologue;
      (erewrite try_raise
         by (erewrite bind_raise; [reflexivity | by apply ticker_lookup_raises]));
      (erewrite bind_ok by apply emit_add);
      by rewrite !add_events_add.
  - split; py_prologue;
      (erewrite try_ok; [|erewrite bind_ok by (by apply ticker_lookup_answers);
                          reflexivity]);
      by rewrite !add_events_add.
Qed.

(** X1. When the provider answers, the fetch of [marketData.py] returns that
    very table, empty or not, for one symbol or for a list (it never
    splits): one request is made and one status line printed, which says
    that no data was found when the table is empty. *)
Theorem simple_fetch_returns_answer
    (tickers : Tickers) (start_date end_date : option string)
    (interval : string) (w : World) (data : PyFrame) :
  yf_download tickers (start_arg w start_date) (end_arg w end_date) interval
    = inr data →
  MarketData.get_historical_data tickers start_date end_date interval w
  = (add_events w
       [EPrint (downloading_line tickers (start_arg w start_date)
                                 (end_arg w end_date));
        EDownload tickers (start_arg w start_date) (end_arg w end_date) interval;
        EPrint (if pf_empty data
                then "No data found. Please check the ticker symbol(s) or date range."
                else "Data downloaded successfully.")],
     inr data).
Proof. intros Hp. by rewrite simple_fetch_run, Hp. Qed.

(** X2. No fetch function lets an exception out: whatever the provider does
    and whatever the combined table looks like, both [get_historical_data]
    functions and both [get_ticker_info] functions return normally. *)
Theorem fetchers_never_raise
    (tickers : Tickers) (start_date end_date : option string)
    (interval ticker : string) (w : World) :
  (∃ data, (MarketData.get_historical_data
              tickers start_date end_date interval w).2 = inr data)
  ∧ (∃ r, (MarketDataGraph.get_historical_data
             tickers start_date end_date interval w).2 = inr r)
  ∧ (∃ o, (MarketData.get_ticker_info ticker w).2 = inr o)
  ∧ (∃ o, (MarketDataGraph.get_ticker_info ticker w).2 = inr o).
Proof.
  split; [|split; [|split]].
  - rewrite simple_fetch_run. destruct (yf_download _ _ _ _); eauto.
  - rewrite graph_fetch_run.
    destruct (yf_download _ _ _ _) as [err|data]; [eauto|].
    destruct (pf_empty data); [eauto|].
    destruct (several tickers) as [l|]; [|eauto].
    destruct (collect_from _ _ _); eauto.
  - rewrite (proj1 (ticker_info_run ticker w)).
    destruct (yf_Ticker ticker); eauto.
  - rewrite (proj2 (ticker_info_run ticker w)).
    destruct (yf_Ticker ticker); eauto.
Qed.

(** X3. Asked for one symbol given as a string, the fetch of
    [marketDataGraph.py] always returns a table, never a mapping.  The table
    is non-empty exactly when the provider answered with a non-empty table,
    and is then that table; in every other case it is a new table without
    rows or columns. *)
Theorem string_ticker_returns_table
    (symbol : string) (start_date end_date : option string)
    (interval : string) (w : World) :
  ∃ data : PyFrame,
    (MarketDataGraph.get_historical_data
       (TStr symbol) start_date end_date interval w).2 = inr (RFrame data)
    ∧ (pf_empty data = false
       ↔ ∃ answer,
           yf_download (TStr symbol) (start_arg w start_date)
                       (end_arg w end_date) interval = inr answer
           ∧ pf_empty answer = false)
    ∧ (pf_empty data = false →
       yf_download (TStr symbol) (start_arg w start_date)
                   (end_arg w end_date) interval = inr data)
    ∧ (pf_empty data = true → data = PlainFrame df_new_empty).
Proof.
  rewrite graph_fetch_run. cbn [several].
  destruct (yf_download _ _ _ _) as [err|answer] eqn:Hp.
  - exists (PlainFrame df_new_empty). split; [done|]. split; [|done].
    split; [done|]. by intros (answer & ? & _).
  - destruct (pf_empty answer) eqn:Hem.
    + exists (PlainFrame df_new_empty). split; [done|]. split; [|done].
      split; [done|]. intros (answer' & [= <-] & Hne). congruence.
    + exists answer. split; [done|]. split; [|split; [done|congruence]].
      split; [eauto|done].
Qed.
(** X4. Asked for a list of more than one symbol, the fetch of
    [marketDataGraph.py] always returns a mapping, and the mapping is all
    or nothing: either it has an entry for every requested symbol, or it is
    empty.  It is non-empty exactly when the provider answered with a
    non-empty combined table in which every requested symbol has columns. *)
Theorem symbol_list_all_or_nothing
    (symbols : list string) (start_date end_date : option string)
    (interval : string) (w : World) :
  1 < length symbols →
  ∃ d : gmap string DataFrame,
    (MarketDataGraph.get_historical_data
       (TList symbols) start_date end_date interval w).2 = inr (RDict d)
    ∧ (d = ∅ ∨ dom d = list_to_set symbols)
    ∧ (d ≠ ∅
       ↔ ∃ m, yf_download (TList symbols) (start_arg w start_date)
                          (end_arg w end_date) interval = inr (MultiFrame m)
              ∧ df_empty m = false
              ∧ ∀ t, t ∈ symbols → t ∈ (df_labels m).*2).
Proof.
  intros Hlen. rewrite graph_fetch_run. cbn [several empty_result].
  rewrite bool_decide_true by done.
  destruct (yf_download _ _ _ _) as [err|data] eqn:Hp.
  { exists ∅. split; [done|]. split; [by left|].
    split; [done|]. by intros (m & ? & _). }
  destruct (pf_empty data) eqn:Hem.
  { exists ∅. split; [done|]. split; [by left|].
    split; [done|]. intros (m & [= ->] & Hne & _). cbn in Hem. congruence. }
  destruct (collect_from ∅ symbols (λ t, xs_level1 t data)) as [err|d] eqn:Hc.
  { exists ∅. split; [done|]. split; [by left|].
    split; [done|]. intros (m & [= ->] & _ & Hcov).
    rewrite (collect_from_total _
               (λ t, mkFrame (df_index m)
                       ((λ c, (c.1.1, c.2))
                          <$> filter (λ c, c.1.2 = t) (df_columns m)))) in Hc;
      [done|].
    intros k Hk. by apply xs_level1_covered, Hcov. }
  apply collect_from_answers in Hc as [Hans Hdom].
  rewrite dom_empty_L, (left_id_L ∅ (∪)) in Hdom.
  exists d. split; [done|]. split; [by right|].
  destruct symbols as [|t0 rest]; [cbn in Hlen; lia|].
  split.
  - intros _. destruct (Hans t0) as [dt Hdt]; [left|].
    apply xs_level1_answers in Hdt as (m & -> & _).
    exists m. split; [done|]. split; [done|].
    intros t Ht. destruct (Hans t Ht) as [dt' Hdt'].
    by apply xs_level1_answers in Hdt' as (m' & [= <-] & ?).
  - intros _ ->. rewrite dom_empty_L in Hdom.
    assert (Hin : t0 ∈ (list_to_set (t0 :: rest) : gset string))
      by (apply elem_of_list_to_set; left).
    rewrite <- Hdom in Hin. by apply not_elem_of_empty in Hin.
Qed.

(** X5. When the combined table is non-empty but one requested symbol has
    no columns in it, the split stops at the first such symbol with a
    [KeyError]: the console shows the success line and then the error line
    naming that symbol, and the result is the empty mapping; the tables of
    the symbols before it are discarded. *)
Theorem missing_symbol_empties_mapping
    (before : list string) (missing : string) (after : list string)
    (start_date end_date : option string) (interval : string) (w : World)
    (m : Frame (string * string)) :
  let symbols := before ++ missing :: after in
  let s := start_arg w start_date in
  let e := end_arg w end_date in
  1 < length symbols →
  yf_download (TList symbols) s e interval = inr (MultiFrame m) →
  df_empty m = false →
  (∀ t, t ∈ before → t ∈ (df_labels m).*2) →
  missing ∉ (df_labels m).*2 →
  MarketDataGraph.get_historical_data
    (TList symbols) start_date end_date interval w
  = (add_events w
       [EPrint (downloading_line (TList symbols) s e);
        EDownload (TList symbols) s e interval;
        EPrint "Data downloaded successfully.";
        EPrint ("An error occurred: '" +:+ missing +:+ "'")],
     inr (RDict ∅)).
Proof.
  intros symbols s e Hlen Hp Hne Hcov Hmiss.
  rewrite graph_fetch_run. fold s e. rewrite Hp. cbn [pf_empty several].
  rewrite Hne, bool_decide_true by done.
  unfold symbols.
  rewrite (collect_from_first_failure _ _ _ _ (KeyError (py_repr_str missing)));
    [done| |by apply xs_level1_uncovered].
  intros k Hk. rewrite xs_level1_covered by (by apply Hcov). eauto.
Qed.

(** X6. When the provider answers the metadata lookup, [get_ticker_info]
    (the same in both files) returns the provider's handle: one lookup is
    made and no error line is printed. *)
Theorem get_ticker_info_returns_handle
    (ticker : string) (w : World) (handle : TickerHandle) :
  yf_Ticker ticker = inr handle →
  let w' := add_events w
              [EPrint ("Fetching information for ticker: " +:+ ticker +:+ "...");
               ETickerLookup ticker] in
  MarketData.get_ticker_info ticker w = (w', inr (Some handle))
  ∧ MarketDataGraph.get_ticker_info ticker w = (w', inr (Some handle)).
Proof.
  intros Hp w'. destruct (ticker_info_run ticker w) as [Hsimple Hgraph].
  rewrite Hsimple, Hgraph, Hp. done.
Qed.

(** X7. For one symbol given as a string the two files' fetches do the
    same things to the outside (same prints, same single request) and
    return tables that are empty together; when the table has data they
    return the same table.  They differ only on an empty answer, which
    [marketData.py] returns as it is and [marketDataGraph.py] replaces by
    a new empty table. *)
Theorem variants_agree_on_string_ticker
    (symbol : string) (start_date end_date : option string)
    (interval : string) (w : World) :
  (MarketData.get_historical_data
     (TStr symbol) start_date end_date interval w).1
  = (MarketDataGraph.get_historical_data
       (TStr symbol) start_date end_date interval w).1
  ∧ ∃ a b : PyFrame,
      (MarketData.get_historical_data
         (TStr symbol) start_date end_date interval w).2 = inr a
      ∧ (MarketDataGraph.get_historical_data
           (TStr symbol) start_date end_date interval w).2 = inr (RFrame b)
      ∧ pf_empty a = pf_empty b
      ∧ (pf_empty a = false → a = b)
      ∧ (pf_empty a = true → b = PlainFrame df_new_empty).
Proof.
  rewrite simple_fetch_run, graph_fetch_run. cbn [several empty_result].
  destruct (yf_download _ _ _ _) as [err|data] eqn:Hp.
  - split; [done|]. exists (PlainFrame df_new_empty), (PlainFrame df_new_empty).
    done.
  - destruct (pf_empty data) eqn:Hem.
    + split; [done|]. exists data, (PlainFrame df_new_empty).
      repeat split; try done. by rewrite Hem.
    + split; [done|]. exists data, data. repeat split; try done. congruence.
Qed.
(** X18. The fetch functions only print and ask the provider: whatever
    the provider does, none of them writes a file, sends the chart library
    anything, or changes a table of the process. *)
Theorem fetchers_touch_nothing
    (tickers : Tickers) (start_date end_date : option string)
    (interval ticker : string) (w : World) :
  only_talks w (MarketData.get_historical_data
                  tickers start_date end_date interval w).1
  ∧ only_talks w (MarketDataGraph.get_historical_data
                    tickers start_date end_date interval w).1
  ∧ only_talks w (MarketData.get_ticker_info ticker w).1
  ∧ only_talks w (MarketDataGraph.get_ticker_info ticker w).1.
Proof.
  unfold only_talks. split; [|split; [|split]].
  - rewrite simple_fetch_run.
    destruct (yf_download _ _ _ _);
      (split; [done|]); (split; [done|]); eexists; (split; [reflexivity|]);
      done.
  - rewrite graph_fetch_run.
    destruct (yf_download _ _ _ _) as [err|data];
      [|destruct (pf_empty data);
        [|destruct (several tickers) as [l|];
          [destruct (collect_from _ _ _)|]]];
      (split; [done|]); (split; [done|]); eexists; (split; [reflexivity|]);
      done.
  - rewrite (proj1 (ticker_info_run ticker w)).
    destruct (yf_Ticker ticker);
      (split; [done|]); (split; [done|]); eexists; (split; [reflexivity|]);
      done.
  - rewrite (proj2 (ticker_info_run ticker w)).
    destruct (yf_Ticker ticker);
      (split; [done|]); (split; [done|]); eexists; (split; [reflexivity|]);
      done.
Qed.
End FetchMore.

(* ===================================================================== *)
(** * More on the renderer *)
(* ===================================================================== *)

Lemma filter_flat_map {A B} (P : B → Prop) `{∀ x, Decision (P x)}
    (g : A → list B) (l : list A) :
  filter P (flat_map g l) = flat_map (λ x, filter P (g x)) l.
Proof.
  induction l as [|x l IH]; [done|].
  cbn [flat_map]. by rewrite filter_app, IH.
Qed.

Lemma flat_map_length_elem {A B} (g : A → list B) (l : list A) (x : A) :
  x ∈ l → length (g x) ≤ length (flat_map g l).
Proof.
  induction l as [|y l IH]; intros Hx.
  - by apply elem_of_nil in Hx.
  - cbn [flat_map]. rewrite length_app.
    apply elem_of_cons in Hx as [->|Hx]; [lia|]. apply IH in Hx. lia.
Qed.

Lemma filter_filter_same {A} (P : A → Prop) `{∀ x, Decision (P x)} (l : list A) :
  filter P (filter P l) = filter P l.
Proof.
  apply filter_all, Forall_forall. intros x Hx.
  by apply list_elem_of_filter in Hx as [? _].
Qed.

Lemma selected_repeats (d : DataFrame) (l : string) :
  l ∈ required_cols →
  length (filter (λ c, c.1 = l) (df_columns d))
  ≤ length (filter (λ c, c.1 = l) (df_columns (selected d))).
Proof.
  intros Hl. unfold selected, select_columns. cbn [df_columns].
  rewrite filter_flat_map.
  pose proof (flat_map_length_elem
                (λ x, filter (λ c, c.1 = l)
                        (filter (λ c, c.1 = x) (df_columns d)))
                required_cols l Hl) as Hlen.
  cbn beta in Hlen. by rewrite filter_filter_same in Hlen.
Qed.

Lemma string_length_app (s t : string) :
  String.length (s +:+ t) = String.length s + String.length t.
Proof.
  induction s as [|a s IH]; [done|].
  change (S (String.length (s +:+ t)) = S (String.length s + String.length t)).
  by rewrite IH.
Qed.

Lemma append_inj_r (s1 s2 t : string) : s1 +:+ t = s2 +:+ t → s1 = s2.
Proof.
  revert s2. induction s1 as [|a s1 IH]; intros s2 Heq.
  - destruct s2 as [|b s2]; [done|]. exfalso.
    apply (f_equal String.length) in Heq.
    rewrite !string_length_app in Heq. cbn in Heq. lia.
  - destruct s2 as [|b s2].
    + exfalso. apply (f_equal String.length) in Heq.
      rewrite !string_length_app in Heq. cbn in Heq. lia.
    + cbn in Heq. injection Heq as -> Heq. f_equal. by apply IH.
Qed.

Lemma save_path_inj (t1 t2 : string) : save_path t1 = save_path t2 → t1 = t2.
Proof. apply append_inj_r. Qed.

Section RendererMore.
Context {chart : ChartLibrary} {text : TextRuntime}.

(** In a table whose labels are all present, a label carried twice makes
    the coercion loop stop with the [TypeError] of [pd.to_numeric]. *)
Lemma coerce_loop_type_error p (ls : list string) :
  ∀ w cur,
    w_heap w !! p = Some cur →
    ls ⊆ df_labels cur →
    (∃ l, l ∈ ls ∧ 2 ≤ length (filter (λ c, c.1 = l) (df_columns cur))) →
    ∃ cur',
      for_each ls (coerce_body p) w
      = (with_heap w (<[p := cur']> (w_heap w)),
         inl (TypeError "arg must be a list, tuple, 1-d array, or Series")).
Proof.
  induction ls as [|l0 ls IH]; intros w cur Hp Hsub [l [Hl Hlen]].
  - by apply elem_of_nil in Hl.
  - cbn [for_each].
    destruct (filter (λ c, c.1 = l0) (df_columns cur)) as [|c1 [|c2 cs]] eqn:Hf.
    + exfalso. assert (Hin : l0 ∈ df_labels cur) by (apply Hsub; left).
      apply list_elem_of_fmap in Hin as [c [-> Hc]].
      assert (Hc' : c ∈ filter (λ c', c'.1 = c.1) (df_columns cur))
        by (by apply list_elem_of_filter).
      rewrite Hf in Hc'. by apply elem_of_nil in Hc'.
    + assert (Hl0 : l0 ∈ df_labels cur) by by eapply filter_nonempty_label.
      assert (Hne : l ≠ l0) by (intros ->; rewrite Hf in Hlen; cbn in Hlen; lia).
      apply elem_of_cons in Hl as [?|Hl]; [done|].
      erewrite bind_ok by by eapply coerce_body_unique.
      edestruct (IH (with_heap w (<[p := coerce_column cur l0]> (w_heap w))))
        as [cur' Hrun].
      { cbn. apply lookup_insert_eq. }
      { unfold coerce_column. rewrite set_column_labels by done.
        intros l' Hl'. apply Hsub. by right. }
      { exists l. split; [done|]. unfold coerce_column.
        by rewrite set_column_filter, length_fmap. }
      exists cur'. rewrite Hrun. cbn [with_heap w_heap w_today w_files w_trace].
      by rewrite insert_insert_eq.
    + exists cur. rewrite insert_id, with_heap_id by done.
      apply bind_raise. unfold coerce_body.
      erewrite bind_ok by by eapply df_getitem_frame.
      by apply bind_raise.
Qed.

Lemma render_repeated data ticker w d l :
  w_heap w !! data = Some d →
  df_empty d = false →
  required_cols ⊆ df_labels d →
  l ∈ required_cols →
  2 ≤ length (filter (λ c, c.1 = l) (df_columns d)) →
  ∃ cur,
    create_candlestick_chart data ticker w
    = (mkWorld (w_today w) (working_heap (w_heap w) (selected d) cur)
               (w_files w)
               (w_trace w
                  ++ [EPrint (creating_line ticker);
                      EPrint (plotting_error_line
                                (TypeError "arg must be a list, tuple, 1-d array, or Series"))]),
       inr tt).
Proof.
  intros Hp Hem Hreq Hl Hrep.
  rewrite (render_prefix _ _ _ d) by done.
  set (p1 := fresh (dom (w_heap w))).
  set (p2 := fresh (dom (<[p1 := selected d]> (w_heap w)))).
  set (w3 := mkWorld _ _ _ _).
  destruct (coerce_loop_type_error p2 (df_labels (selected d)) w3 (selected d))
    as [cur Hloop].
  { apply lookup_insert_eq. }
  { done. }
  { exists l. split.
    - assert (Hlen := selected_repeats d l Hl).
      destruct (filter (λ c, c.1 = l) (df_columns (selected d))) as [|c cs] eqn:Hf;
        [cbn in Hlen; lia|].
      by eapply filter_nonempty_label.
    - etrans; [exact Hrep|]. by apply selected_repeats. }
  exists cur.
  erewrite try_raise by (apply bind_raise; exact Hloop).
  unfold print. rewrite emit_add. unfold add_events, with_heap, w3. cbn.
  unfold working_heap. fold p1 p2.
  by rewrite insert_insert_eq, <- !(assoc_L (++)).
Qed.

Lemma render_outcome data ticker w d :
  w_heap w !! data = Some d →
  RenderOutcome w d ticker (create_candlestick_chart data ticker w).
Proof.
  intros Hp. destruct (df_empty d) eqn:Hem.
  { rewrite (render_empty _ _ _ d) by done. by constructor. }
  destruct (decide (required_cols ⊆ df_labels d)) as [Hreq|Hreq].
  2:{ rewrite (render_missing _ _ _ d) by done. by constructor. }
  destruct (decide (NoDup (df_labels (selected d)))) as [Hnd|Hnd].
  - rewrite (render_clean _ _ _ d) by done.
    assert (Honce : required_once d) by by apply selected_once.
    destruct (mpf_render (chart_request (cleaned d) ticker)) as [e|img] eqn:Hr.
    + by apply render_plot_failed.
    + by apply render_saved.
  - destruct (render_duplicate data ticker w d) as [cur [e ->]]; try done.
    by apply render_cleaning_failed.
Qed.

(** X8. A render of a live table never lets an exception out: whatever
    the table holds and whatever the chart library does, the call returns
    normally. *)
Theorem renderer_never_raises
    (w : World) (data : loc) (d : DataFrame) (ticker : string) :
  w_heap w !! data = Some d →
  (create_candlestick_chart data ticker w).2 = inr tt.
Proof. intros Hp. by destruct (render_outcome data ticker w d Hp). Qed.

(** X9. What one render can do to the outside is bounded: it sends the
    chart library at most one request and writes at most one file; a file
    write comes only directly after a request, and only to
    "<symbol>_candlestick_chart.png"; every other file of the directory is
    left as it was. *)
Theorem renderer_effects_bounded
    (w : World) (data : loc) (d : DataFrame) (ticker : string) :
  w_heap w !! data = Some d →
  ∃ evs,
    w_trace (create_candlestick_chart data ticker w).1 = w_trace w ++ evs
    ∧ length (plot_calls evs) ≤ 1
    ∧ length (file_writes evs) ≤ 1
    ∧ (∀ before path img after,
         evs = before ++ ESave path img :: after →
         path = ticker +:+ "_candlestick_chart.png"
         ∧ ∃ earlier call, before = earlier ++ [EPlot call])
    ∧ (∀ path, path ≠ ticker +:+ "_candlestick_chart.png" →
         w_files (create_candlestick_chart data ticker w).1 !! path
         = w_files w !! path).
Proof.
  intros Hp.
  destruct (render_outcome data ticker w d Hp);
    (eexists; split; [reflexivity|]); cbn;
    (split; [lia|]); (split; [lia|]); split;
    try done;
    try (intros before path img' after Heq;
         repeat (destruct before as [|ev before];
                 [discriminate Heq|injection Heq as <- Heq]);
         by destruct before).
  - intros before path img' after Heq.
    destruct before as [|ev0 before]; [discriminate Heq|].
    injection Heq as <- Heq.
    destruct before as [|ev1 before]; [discriminate Heq|].
    injection Heq as <- Heq.
    destruct before as [|ev2 before].
    + injection Heq as <- <- <-. split; [done|].
      by exists [EPrint (creating_line ticker)], (chart_request (cleaned d) ticker).
    + injection Heq as <- Heq.
      destruct before as [|ev3 before]; [discriminate Heq|].
      injection Heq as <- Heq. by destruct before.
  - intros path Hne. by apply lookup_insert_ne.
Qed.

(** X10. When the chart library raises on the request for a table with
    rows that has the five columns once, the renderer catches the
    exception: after the announcement it prints the library's message
    behind "An error occurred while plotting: ", it does not print the
    confirmation, and it returns normally. *)
Theorem chart_library_error_is_reported
    (w : World) (data : loc) (d : DataFrame) (ticker : string) (e : Exception) :
  w_heap w !! data = Some d →
  df_empty d = false →
  required_once d →
  mpf_render (chart_request (cleaned d) ticker) = inl e →
  (create_candlestick_chart data ticker w).2 = inr tt
  ∧ ∃ evs,
      w_trace (create_candlestick_chart data ticker w).1 = w_trace w ++ evs
      ∧ plot_calls evs = [chart_request (cleaned d) ticker]
      ∧ printed evs
        = ["Creating candlestick chart for " +:+ ticker +:+ "...";
           "An error occurred while plotting: " +:+ exc_str e].
Proof.
  intros Hp Hem Honce He.
  assert (Hreq : required_cols ⊆ df_labels d).
  { intros l Hl. destruct (Honce l Hl) as [c Hc].
    by eapply filter_nonempty_label. }
  rewrite (render_clean _ _ _ d), He
    by (try done; by apply once_selected_NoDup).
  split; [done|]. by eexists.
Qed.

(** X11. A table that has the five columns but carries one of their
    labels twice is not plotted: [pd.to_numeric] is handed a table instead
    of a column and raises, the renderer reports that error, sends the
    chart library nothing and writes no file. *)
Theorem repeated_required_column_is_refused
    (w : World) (data : loc) (d : DataFrame) (ticker label : string) :
  w_heap w !! data = Some d →
  df_index d ≠ [] →
  required_cols ⊆ df_labels d →
  label ∈ required_cols →
  2 ≤ length (filter (λ c, c.1 = label) (df_columns d)) →
  (create_candlestick_chart data ticker w).2 = inr tt
  ∧ w_trace (create_candlestick_chart data ticker w).1
    = w_trace w
        ++ [EPrint ("Creating candlestick chart for " +:+ ticker +:+ "...");
            EPrint ("An error occurred while plotting: "
                    +:+ "arg must be a list, tuple, 1-d array, or Series")]
  ∧ w_files (create_candlestick_chart data ticker w).1 = w_files w.
Proof.
  intros Hp Hidx Hreq Hl Hrep.
  assert (Hem : df_empty d = false).
  { unfold df_empty. destruct (df_index d); [done|].
    destruct (df_columns d); [cbn in Hrep; lia|done]. }
  destruct (render_repeated data ticker w d label) as [cur ->]; done.
Qed.
End RendererMore.

Section Numeric.
Context {text : TextRuntime}.

Lemma coerce_cell_cases (y : Cell) :
  (∃ q, coerce_cell y = CNum q) ∨ coerce_cell y = CNaN.
Proof.
  destruct y as [q| | |s]; cbn; eauto.
  destruct (parse_numeric s); eauto.
Qed.

Lemma cleaned_cells_numeric (sel : DataFrame) c x :
  c ∈ df_columns (dropna (coerce_columns sel)) → x ∈ c.2 → ∃ q, x = CNum q.
Proof.
  unfold dropna. cbn [df_columns]. intros Hc Hx.
  apply list_elem_of_fmap in Hc as [c0 [-> Hc0]]. cbn [snd] in Hx.
  apply list_elem_of_fmap in Hx as [i [-> Hi]].
  unfold dropna_keep in Hi. apply list_elem_of_filter in Hi as [Hall _].
  rewrite forallb_forall in Hall.
  specialize (Hall c0 ltac:(by apply list_elem_of_In)).
  unfold coerce_columns in Hc0. cbn [df_columns] in Hc0.
  apply list_elem_of_fmap in Hc0 as [c1 [-> _]]. cbn [snd] in *.
  rewrite lookup_total_coerce in Hall |- *.
  destruct (coerce_cell_cases (c1.2 !!! i)) as [[q ->]|Hnan]; [eauto|].
  by rewrite Hnan in Hall.
Qed.

Lemma once_has_required (d : DataFrame) :
  required_once d → required_cols ⊆ df_labels d.
Proof.
  intros Honce l Hl. destruct (Honce l Hl) as [c Hc].
  by eapply filter_nonempty_label.
Qed.


End Numeric.

Section RendererTables.
Context {chart : ChartLibrary} {text : TextRuntime}.

(** X12. Whatever table the renderer is given, a table it sends to the
    chart library holds numbers only (no NaN, no [None], no text) and each
    of its columns is as long as its index: the cleaning does what its
    comment says it is for. *)
Theorem plotted_table_is_numeric
    (w : World) (data : loc) (d : DataFrame) (ticker : string) :
  w_heap w !! data = Some d →
  ∃ evs,
    w_trace (create_candlestick_chart data ticker w).1 = w_trace w ++ evs
    ∧ ∀ call, call ∈ plot_calls evs →
        rectangular (pc_data call)
        ∧ ∀ c x, c ∈ df_columns (pc_data call) → x ∈ c.2 → ∃ q, x = CNum q.
Proof.
  intros Hp.
  destruct (render_outcome data ticker w d Hp);
    (eexists; split; [reflexivity|]); cbn; intros call Hcall;
    try (by apply elem_of_nil in Hcall);
    apply list_elem_of_singleton in Hcall as ->; cbn [pc_data chart_request];
    (split; [apply dropna_rectangular|]);
    intros c x; apply cleaned_cells_numeric.
Qed.


(** X15. Rendering the same table for the same symbol a second time
    leaves the directory as the first render left it, and the table is
    still the one given. *)
Theorem rendering_twice_same_directory
    (w : World) (data : loc) (d : DataFrame) (ticker : string) :
  w_heap w !! data = Some d →
  let once := (create_candlestick_chart data ticker w).1 in
  let twice := (create_candlestick_chart data ticker once).1 in
  w_files twice = w_files once
  ∧ w_heap twice !! data = Some d.
Proof.
  intros Hp once twice.
  assert (Hp1 : w_heap once !! data = Some d).
  { unfold once. destruct (render_outcome data ticker w d Hp); cbn;
      solve [done | by apply working_heap_old]. }
  assert (Hfiles1 :
    (w_files once = w_files w
     ∧ ¬ (df_empty d = false ∧ required_once d
          ∧ ∃ img, mpf_render (chart_request (cleaned d) ticker) = inr img))
    ∨ ∃ img, mpf_render (chart_request (cleaned d) ticker) = inr img
             ∧ w_files once = <[save_path ticker := img]> (w_files w)).
  { unfold once.
    destruct (render_outcome data ticker w d Hp)
      as [Hem|Hem Hmiss|cur e Hem Hreq Hdup|e Hem Honce Hr|img Hem Honce Hr];
      cbn; [left|left|left|left|right; eauto]; (split; [done|]).
    - intros (Hne & _). congruence.
    - intros (_ & Honce & _). by apply Hmiss, once_has_required.
    - intros (_ & Honce & _). by apply Hdup, once_selected_NoDup.
    - intros (_ & _ & img & Himg). congruence. }
  unfold twice.
  destruct (render_outcome data ticker once d Hp1)
    as [Hem|Hem Hmiss|cur e Hem Hreq Hdup|e Hem Honce Hr|img Hem Honce Hr];
    cbn; (split; [|solve [done | by apply working_heap_old]]); try done.
  destruct Hfiles1 as [[_ Hnot]|(img' & Hr' & ->)].
  - exfalso. apply Hnot. eauto.
  - assert (img' = img) as -> by congruence. by rewrite insert_insert_eq.
Qed.

(** X16. Charts of different symbols do not overwrite each other: a
    render for one symbol leaves the image file of any other symbol as it
    was. *)
Theorem distinct_symbols_distinct_files
    (w : World) (data : loc) (d : DataFrame) (ticker other : string) :
  w_heap w !! data = Some d →
  other ≠ ticker →
  other +:+ "_candlestick_chart.png" ≠ ticker +:+ "_candlestick_chart.png"
  ∧ w_files (create_candlestick_chart data ticker w).1
      !! (other +:+ "_candlestick_chart.png")
    = w_files w !! (other +:+ "_candlestick_chart.png").
Proof.
  intros Hp Hne.
  assert (Hpath : save_path other ≠ save_path ticker)
    by (intros Heq; by apply Hne, save_path_inj).
  split; [exact Hpath|].
  destruct (render_outcome data ticker w d Hp); cbn; try done.
  by apply lookup_insert_ne.
Qed.
End RendererTables.

(** X17. The per-symbol table that the split hands on can be rendered:
    when the combined table has, for a symbol, each of the five price
    fields once, that symbol's table passes the renderer's column check
    and has the five required columns once, on the combined table's index
    and with the combined table's cells. *)
Theorem split_table_has_required_columns
    (m : Frame (string * string)) (symbol : string) :
  (∀ f, f ∈ required_cols →
        ∃ c, filter (λ c, c.1 = (f, symbol)) (df_columns m) = [c]) →
  ∃ dt : DataFrame,
    xs_level1 symbol (MultiFrame m) = inr dt
    ∧ df_index dt = df_index m
    ∧ forallb (λ col, bool_decide (col ∈ df_labels dt)) required_cols = true
    ∧ required_once dt
    ∧ ∀ f c, f ∈ required_cols →
             filter (λ c, c.1 = (f, symbol)) (df_columns m) = [c] →
             column dt f = c.2.
Proof.
  intros Hfields.
  set (dt := mkFrame (df_index m)
               ((λ c : string * string * list Cell, (c.1.1, c.2))
                  <$> filter (λ c, c.1.2 = symbol) (df_columns m))).
  assert (Hfilter : ∀ f,
    filter (λ c, c.1 = f) (df_columns dt)
    = (λ c : string * string * list Cell, (c.1.1, c.2))
        <$> filter (λ c, c.1 = (f, symbol)) (df_columns m)).
  { intros f. unfold dt. cbn [df_columns].
    rewrite filter_fmap, list_filter_filter. f_equal.
    apply filter_ext_in. intros [[f' t'] cells] _. cbn. split.
    - by intros [-> ->].
    - by intros [= -> ->]. }
  assert (Honce : required_once dt).
  { intros f Hf. destruct (Hfields f Hf) as [c Hc].
    rewrite Hfilter, Hc. eauto. }
  exists dt. split; [|split; [done|split; [|split; [done|]]]].
  - apply xs_level1_covered.
    destruct (Hfields "Open") as [c Hc]; [left|].
    assert (Hin : c ∈ filter (λ c, c.1 = ("Open", symbol)) (df_columns m))
      by (rewrite Hc; left).
    apply list_elem_of_filter in Hin as [Hl Hin].
    unfold df_labels. rewrite <- list_fmap_compose.
    apply list_elem_of_fmap. exists c. split; [|done]. cbn. by rewrite Hl.
  - apply has_required_forallb. intros f Hf.
    destruct (Honce f Hf) as [c Hc]. by eapply filter_nonempty_label.
  - intros f c Hf Hc. unfold column. by rewrite Hfilter, Hc.
Qed.

(* ===================================================================== *)
(** * More concrete runs *)
(* ===================================================================== *)

(** Settles [required_once] for a concrete table, label by label. *)
Ltac once_by_cases :=
  let l := fresh "l" in
  let Hl := fresh "Hl" in
  intros l Hl;
  repeat (apply elem_of_cons in Hl as [->|Hl];
          [eexists; vm_compute; reflexivity|]);
  by apply elem_of_nil in Hl.

Lemma bars_aapl_once : required_once bars_aapl.
Proof. once_by_cases. Qed.



(** AAPL is known to the small provider: the simple fetch returns its
    table. *)
Lemma aapl_fetched :
  (MarketData.get_historical_data (provider:=small_provider)
     (text:=plain_text) (TStr "AAPL") (Some "2023-01-01") (Some "2024-01-01")
     "1d" (world_with bars_aapl)).2
  = inr (PlainFrame bars_aapl).
Proof.
  rewrite (simple_fetch_returns_answer (provider:=small_provider)
             (text:=plain_text) (TStr "AAPL") (Some "2023-01-01")
             (Some "2024-01-01") "1d" (world_with bars_aapl)
             (PlainFrame bars_aapl) eq_refl).
  reflexivity.
Defined.

(** The pair MSFT, GOOGL: a mapping with both keys. *)
Lemma pair_fetched_whole :
  ∃ d : gmap string DataFrame,
    (MarketDataGraph.get_historical_data (provider:=small_provider)
       (text:=plain_text) (TList ["MSFT"; "GOOGL"]) None None "1mo"
       (world_with bars_aapl)).2 = inr (RDict d)
    ∧ (d = ∅ ∨ dom d = list_to_set ["MSFT"; "GOOGL"]).
Proof.
  destruct (symbol_list_all_or_nothing (provider:=small_provider)
              (text:=plain_text) ["MSFT"; "GOOGL"] None None "1mo"
              (world_with bars_aapl))
    as (d & Hrun & Hshape & _).
  - cbn. lia.
  - exists d. split; [exact Hrun|exact Hshape].
Defined.

(** TSLA is not in the two-symbol table: the whole result is empty. *)
Lemma tsla_missing_from_pair :
  (MarketDataGraph.get_historical_data (provider:=pair_provider)
     (text:=plain_text) (TList ["MSFT"; "TSLA"; "GOOGL"]) None None "1mo"
     (world_with bars_aapl)).2 = inr (RDict ∅)
  ∧ printed
      (w_trace
         (MarketDataGraph.get_historical_data (provider:=pair_provider)
            (text:=plain_text) (TList ["MSFT"; "TSLA"; "GOOGL"]) None None
            "1mo" (world_with bars_aapl)).1)
    = ["Downloading historical data for ['MSFT', 'TSLA', 'GOOGL'] from 2023-03-02 to 2024-03-01...";
       "Data downloaded successfully.";
       "An error occurred: 'TSLA'"].
Proof.
  pose proof (missing_symbol_empties_mapping (provider:=pair_provider)
                (text:=plain_text) ["MSFT"] "TSLA" ["GOOGL"] None None "1mo"
                (world_with bars_aapl) bars_two_symbols) as Hrun.
  cbn zeta in Hrun. cbn [app] in Hrun. rewrite Hrun.
  - split; [reflexivity|]. vm_compute. reflexivity.
  - cbn. lia.
  - reflexivity.
  - reflexivity.
  - intros t Ht. apply list_elem_of_singleton in Ht as ->.
    apply (bool_decide_unpack _). vm_compute. exact I.
  - apply (bool_decide_unpack _). vm_compute. exact I.
Defined.

(** The metadata handle of TSLA. *)
Lemma tsla_handle :
  (MarketData.get_ticker_info (provider:=small_provider) "TSLA"
     (world_with bars_aapl)).2
  = inr (Some (mkTicker "TSLA" {[ "sector" := CStr "Consumer Cyclical" ]})).
Proof.
  destruct (get_ticker_info_returns_handle (provider:=small_provider) "TSLA"
              (world_with bars_aapl)
              (mkTicker "TSLA" {[ "sector" := CStr "Consumer Cyclical" ]})
              eq_refl) as [-> _].
  reflexivity.
Defined.

(** The AAPL render returns normally. *)
Lemma aapl_render_returns : (render_in bars_aapl).2 = inr tt.
Proof.
  apply (renderer_never_raises (chart:=strict_chart) (text:=plain_text)
           (world_with bars_aapl) 1%positive bars_aapl "AAPL").
  reflexivity.
Defined.

(** The AAPL render: one request, one write, and an unrelated file of the
    directory is as it was. *)
Lemma aapl_render_bounded :
  ∃ evs,
    w_trace (render_in bars_aapl).1 = evs
    ∧ length (plot_calls evs) ≤ 1
    ∧ length (file_writes evs) ≤ 1
    ∧ w_files (render_in bars_aapl).1 !! "notes.txt"
      = w_files (world_with bars_aapl) !! "notes.txt".
Proof.
  destruct (renderer_effects_bounded (chart:=strict_chart) (text:=plain_text)
              (world_with bars_aapl) 1%positive bars_aapl "AAPL" eq_refl)
    as (evs & Htrace & Hplots & Hwrites & _ & Hframe).
  exists evs. split; [exact Htrace|]. split; [exact Hplots|].
  split; [exact Hwrites|]. apply Hframe. discriminate.
Defined.

(** With a chart library that cannot write, the error is what is
    printed. *)
Lemma aapl_render_disk_full :
  (create_candlestick_chart (chart:=failing_chart) (text:=plain_text)
     1%positive "AAPL" (world_with bars_aapl)).2 = inr tt
  ∧ printed
      (w_trace (create_candlestick_chart (chart:=failing_chart)
                  (text:=plain_text) 1%positive "AAPL"
                  (world_with bars_aapl)).1)
    = ["Creating candlestick chart for AAPL...";
       "An error occurred while plotting: No space left on device"].
Proof.
  destruct (chart_library_error_is_reported (chart:=failing_chart)
              (text:=plain_text) (world_with bars_aapl) 1%positive bars_aapl
              "AAPL" (mkExc "OSError" "No space left on device"))
    as (Hret & evs & Htrace & _ & Hprinted).
  - reflexivity.
  - reflexivity.
  - exact bars_aapl_once.
  - reflexivity.
  - split; [exact Hret|]. rewrite Htrace. exact Hprinted.
Defined.

(** The bar with two close columns is refused. *)
Lemma close_twice_refused :
  printed (w_trace (render_in bars_close_twice).1)
  = ["Creating candlestick chart for AAPL...";
     "An error occurred while plotting: arg must be a list, tuple, 1-d array, or Series"]
  ∧ w_files (render_in bars_close_twice).1
    = w_files (world_with bars_close_twice).
Proof.
  destruct (repeated_required_column_is_refused (chart:=strict_chart)
              (text:=plain_text) (world_with bars_close_twice) 1%positive
              bars_close_twice "AAPL" "Close")
    as (_ & Htrace & Hfiles).
  - reflexivity.
  - discriminate.
  - apply (bool_decide_unpack _). vm_compute. exact I.
  - apply (bool_decide_unpack _). vm_compute. exact I.
  - vm_compute. lia.
  - split; [|exact Hfiles].
    unfold render_in. rewrite Htrace. reflexivity.
Defined.

(** What the AAPL render sends holds numbers only. *)
Lemma aapl_request_numeric :
  Forall (λ c, Forall (λ x, isna x = false) c.2)
         (df_columns (pc_data aapl_request)).
Proof.
  destruct (plotted_table_is_numeric (chart:=strict_chart) (text:=plain_text)
              (world_with bars_aapl) 1%positive bars_aapl "AAPL" eq_refl)
    as (evs & Htrace & Hnum).
  assert (Hcall : aapl_request ∈ plot_calls evs).
  { cbn in Htrace. rewrite <- Htrace.
    assert (Hcalls : plot_calls (w_trace (render_in bars_aapl).1) = [aapl_request])
      by (vm_compute; reflexivity).
    unfold render_in in Hcalls. rewrite Hcalls. left. }
  apply Forall_forall. intros c Hc. apply Forall_forall. intros x Hx.
  by destruct (proj2 (Hnum aapl_request Hcall) c x Hc Hx) as [q ->].
Defined.


(** Rendering AAPL twice leaves the one image. *)
Lemma aapl_rendered_twice :
  w_files (create_candlestick_chart (chart:=strict_chart) (text:=plain_text)
             1%positive "AAPL" (render_in bars_aapl).1).1
  = {[ "AAPL_candlestick_chart.png" := "PNG:AAPL Candlestick Chart" ]}.
Proof.
  destruct (rendering_twice_same_directory (chart:=strict_chart)
              (text:=plain_text) (world_with bars_aapl) 1%positive bars_aapl
              "AAPL" eq_refl) as [Hfiles _].
  unfold render_in. rewrite Hfiles. vm_compute. reflexivity.
Defined.

(** Rendering the same bars for MSFT keeps the AAPL image. *)
Lemma msft_render_keeps_aapl_image :
  w_files (create_candlestick_chart (chart:=strict_chart) (text:=plain_text)
             1%positive "MSFT" (world_with bars_aapl)).1
    !! "AAPL_candlestick_chart.png"
  = Some "old image".
Proof.
  destruct (distinct_symbols_distinct_files (chart:=strict_chart)
              (text:=plain_text) (world_with bars_aapl) 1%positive bars_aapl
              "MSFT" "AAPL" eq_refl) as [_ Hkept].
  - discriminate.
  - etrans; [exact Hkept|reflexivity].
Defined.

(** The MSFT table cut out of the full combined table has the five
    columns. *)
Lemma msft_table_renderable :
  ∃ dt, xs_level1 "MSFT" (MultiFrame bars_two_full) = inr dt
        ∧ required_once dt
        ∧ column dt "Close" = [num 247; num 249].
Proof.
  destruct (split_table_has_required_columns bars_two_full "MSFT")
    as (dt & Hxs & _ & _ & Honce & Hcol).
  - intros f Hf.
    repeat (apply elem_of_cons in Hf as [->|Hf];
            [eexists; vm_compute; reflexivity|]).
    by apply elem_of_nil in Hf.
  - exists dt. split; [exact Hxs|]. split; [exact Honce|].
    apply (Hcol "Close" (("Close", "MSFT"), [num 247; num 249])).
    + unfold required_cols. do 3 right. left.
    + vm_compute. reflexivity.
Defined.
